(** * solid_node: the node build lifecycle of [solid_node/node/base.py]

    A shallow embedding of [AbstractBaseNode] and [StlRenderStart]:
    the staleness stamp ([mtime], [_up_to_date]), the description file
    ([generate_scad]), the memoised [assemble], the pid lock file
    ([_stl_generation_locked], [generate_stl]), the pending render job
    ([finish], [wait]), the tree walk ([trigger_stl]), the driver
    ([build_stls]) and the creation of the build directories
    ([_make_build_dirs]).

    Python code runs against an explicit operating-system state [world];
    a call either returns a value or raises an exception ([outcome]). *)

From Stdlib Require Import ZArith String Ascii List Bool Lia.
From stdpp Require Import base option list gmap sets strings.

Local Open Scope string_scope.
Local Open Scope list_scope.
Local Open Scope Z_scope.

(** ** Exceptions and outcomes *)

(** The payload of the [StlRenderStart] exception: the subprocess handle
    (its pid), the binary path, the stamp to give it, the lock path. *)
Record StlRenderStart := mkStlRenderStart {
  job_proc : Z;
  job_stl_file : string;
  job_mtime : Z;
  job_lock_file : string
}.

Inductive exn :=
| FileNotFoundError
| FileExistsError
| IsADirectoryError
| NotADirectoryError
| PermissionError
| ProcessLookupError
| OverflowError
| ValueError
| TypeError
| AttributeError
| NotImplementedError
| ModuleNotFoundError
| BdbQuit
| HookError (tag : string)          (* raised by a subclass method *)
| RenderStart (job : StlRenderStart).

Inductive outcome (A : Type) :=
| Ret (a : A)
| Raise (e : exn).
Arguments Ret {A} a.
Arguments Raise {A} e.

(** ** The operating system *)

Inductive kind :=
| Regular (content : string)
| Directory.

(** Times are floats in Python.  Here a time is an integer: the floats
    are counted in their order, so that [==] and [max] on times are those
    of [Z].  An [entry] holds the times of a file as [os.path.getmtime]
    and [os.path.getatime] read them. *)
Record entry := mkEntry {
  e_kind : kind;
  e_atime : Z;
  e_mtime : Z
}.

Record process := mkProcess {
  p_argv : list string;
  p_foreign : bool        (* owned by another user: signalling it is denied *)
}.

(** How an interactive [ipdb] session ends. *)
Inductive debugger :=
| DbgMissing      (* the ipdb module is not installed *)
| DbgContinue     (* the user resumes the program *)
| DbgQuit.        (* the user quits the debugger *)

Record world := mkWorld {
  w_fs : gmap string entry;        (* what is at a path, as the path
                                      is written; paths are relative
                                      to the current directory *)
  w_clock : Z;                     (* time.time() *)
  w_procs : gmap Z process;        (* what a signal sent to an identifier
                                      reaches: live (or not yet reaped)
                                      processes, and process groups for
                                      identifiers below 1 *)
  w_pid : Z;                       (* the invoking process itself *)
  w_next_pid : Z;                  (* pid given to the next child *)
  w_mkdir_denied : gset string;    (* paths where mkdir is refused
                                      (no permission, read-only volume) *)
  w_openscad : option string -> option string * Z;
       (* the renderer: description text (if the file is there) to the
          binary it writes (if any) and its exit status *)
  w_debugger : debugger;
  w_kept : Z -> Z
       (* what [os.utime] keeps of a time: the time that is read back
          once it is stored.  The float goes to the system as whole
          seconds and nanoseconds, rounded down (100.3 s is kept as
          100.299999999 s), and a file system may keep less; a time
          that is a whole number of stamp units is kept as it is *)
}.

Definition set_fs (f : gmap string entry -> gmap string entry) (w : world) : world :=
  mkWorld (f (w_fs w)) (w_clock w) (w_procs w) (w_pid w) (w_next_pid w)
          (w_mkdir_denied w) (w_openscad w) (w_debugger w) (w_kept w).

Definition set_procs (f : gmap Z process -> gmap Z process) (nxt : Z) (w : world) : world :=
  mkWorld (w_fs w) (w_clock w) (f (w_procs w)) (w_pid w) nxt
          (w_mkdir_denied w) (w_openscad w) (w_debugger w) (w_kept w).

Definition time_time (w : world) : Z := w_clock w.

Definition os_path_exists (p : string) (w : world) : bool :=
  match w_fs w !! p with Some _ => true | None => false end.

Definition os_path_getmtime (p : string) (w : world) : outcome Z :=
  match w_fs w !! p with
  | Some e => Ret (e_mtime e)
  | None => Raise FileNotFoundError
  end.

(** [os.utime(p, ns=(atime, mtime))]: the two stamps are stored as they
    are given.  The program never calls it; it stands for what the
    environment does to a file when it touches it. *)
Definition os_utime_ns (p : string) (times : Z * Z) (w : world) : outcome unit * world :=
  match w_fs w !! p with
  | Some e => (Ret tt, set_fs <[p := mkEntry (e_kind e) (fst times) (snd times)]> w)
  | None => (Raise FileNotFoundError, w)
  end.

(** [os.utime(p, (atime, mtime))] with two floats: the system stores
    what it keeps of them. *)
Definition os_utime (p : string) (times : Z * Z) (w : world) : outcome unit * world :=
  os_utime_ns p (w_kept w (fst times), w_kept w (snd times)) w.

(** [open(p)] for reading; the handle is represented by the text that
    [fh.read()] returns. *)
Definition open_r (p : string) (w : world) : outcome string :=
  match w_fs w !! p with
  | Some (mkEntry (Regular c) _ _) => Ret c
  | Some (mkEntry Directory _ _) => Raise IsADirectoryError
  | None => Raise FileNotFoundError
  end.

(** [open(p, 'w')]: creates or truncates; the handle is the path.  The
    directory that holds [p] is taken to be there. *)
Definition open_w (p : string) (w : world) : outcome string * world :=
  match w_fs w !! p with
  | Some (mkEntry Directory _ _) => (Raise IsADirectoryError, w)
  | Some (mkEntry (Regular _) a _) =>
      (Ret p, set_fs <[p := mkEntry (Regular "") a (w_clock w)]> w)
  | None =>
      (Ret p, set_fs <[p := mkEntry (Regular "") (w_clock w) (w_clock w)]> w)
  end.

(** [fh.write(s); fh.close()] on a handle from [open_w]. *)
Definition fh_write (fh : string) (s : string) (w : world) : world :=
  match w_fs w !! fh with
  | Some (mkEntry (Regular c) a _) =>
      set_fs <[fh := mkEntry (Regular (c +:+ s)) a (w_clock w)]> w
  | _ => w
  end.

Definition os_remove (p : string) (w : world) : outcome unit * world :=
  match w_fs w !! p with
  | Some (mkEntry (Regular _) _ _) => (Ret tt, set_fs (delete p) w)
  | Some (mkEntry Directory _ _) => (Raise IsADirectoryError, w)
  | None => (Raise FileNotFoundError, w)
  end.

(** [os.kill(pid, 0)]: the liveness probe.  A pid that does not fit a C
    [int] is rejected by the argument conversion. *)
Definition os_kill0 (pid : Z) (w : world) : outcome unit :=
  if bool_decide (- 2 ^ 31 <= pid < 2 ^ 31) then
    match w_procs w !! pid with
    | None => Raise ProcessLookupError
    | Some p => if p_foreign p then Raise PermissionError else Ret tt
    end
  else Raise OverflowError.

(** [Popen(argv)]: a child of the invoking process starts; the call does
    not wait for it.  (The executable is taken to be installed.) *)
Definition Popen (argv : list string) (w : world) : Z * world :=
  let pid := w_next_pid w in
  (pid, set_procs <[pid := mkProcess argv false]> (pid + 1) w).

(** What the renderer [openscad <scad> -o <stl>] does when it runs to its
    end: it may write the binary, and it leaves an exit status. *)
Definition run_renderer (argv : list string) (w : world) : Z * world :=
  match argv with
  | [_; scad; _; stl] =>
      let src := match open_r scad w with Ret c => Some c | Raise _ => None end in
      let '(out, status) := w_openscad w src in
      (status,
       match out with
       | Some bytes => set_fs <[stl := mkEntry (Regular bytes) (w_clock w) (w_clock w)]> w
       | None => w
       end)
  | _ => (0, w)
  end.

(** [proc.wait()]: blocks until the child is over and reaps it. *)
Definition proc_wait (pid : Z) (w : world) : Z * world :=
  match w_procs w !! pid with
  | Some p =>
      let '(status, w') := run_renderer (p_argv p) w in
      (status, set_procs (delete pid) (w_next_pid w') w')
  | None => (0, w)
  end.

(** ** Python strings *)

(** [s.split('/')]: never empty; ["a//b"] gives ["a"; ""; "b"]. *)
Fixpoint split_slash (s : string) : list string :=
  match s with
  | EmptyString => [""]
  | String c s' =>
      if Ascii.eqb c "/" then "" :: split_slash s'
      else match split_slash s' with
           | [] => [String c ""]
           | x :: xs => String c x :: xs
           end
  end.

(** ['/'.join(l)] *)
Fixpoint join_slash (l : list string) : string :=
  match l with
  | [] => ""
  | [x] => x
  | x :: xs => x +:+ "/" +:+ join_slash xs
  end.

(** [','.join(l)] *)
Fixpoint join_comma (l : list string) : string :=
  match l with
  | [] => ""
  | [x] => x
  | x :: xs => x +:+ "," +:+ join_comma xs
  end.

(** The directory that holds [p], as the path is written: all its
    components but the last.  [None]: the path has one component, and the
    entry is in the current directory. *)
Definition parent_of (p : string) : option string :=
  match split_slash p with
  | [] | [_] => None
  | comps => Some (join_slash (removelast comps))
  end.

(** [os.mkdir(p)]: the path must be free, the directory that holds it
    must be there (for a path from the root it is the root), and the
    machine must allow it. *)
Definition os_mkdir (p : string) (w : world) : outcome unit * world :=
  let create :=
    if bool_decide (p ∈ w_mkdir_denied w) then (Raise PermissionError, w)
    else (Ret tt, set_fs <[p := mkEntry Directory (w_clock w) (w_clock w)]> w) in
  match w_fs w !! p with
  | Some _ => (Raise FileExistsError, w)
  | None =>
      if bool_decide (p = "") then (Raise FileNotFoundError, w)
      else
        match parent_of p with
        | None => create
        | Some d =>
            if bool_decide (d = "") then create
            else
              match w_fs w !! d with
              | Some (mkEntry Directory _ _) => create
              | Some (mkEntry (Regular _) _ _) => (Raise NotADirectoryError, w)
              | None => (Raise FileNotFoundError, w)
              end
        end
  end.

(** No ['/'] in [s]. *)
Fixpoint slash_free (s : string) : bool :=
  match s with
  | EmptyString => true
  | String c s' => negb (Ascii.eqb c "/") && slash_free s'
  end.

(** [s[:-3]] *)
Definition drop_last3 (s : string) : string :=
  String.substring 0 (String.length s - 3) s.

(** [os.path.join(a, b)] of posixpath, for two arguments *)
Definition os_path_join (a b : string) : string :=
  match b with
  | String "/" _ => b
  | _ =>
      if bool_decide (a = "") then b
      else match String.get (String.length a - 1) a with
           | Some "/"%char => a +:+ b
           | _ => a +:+ "/" +:+ b
           end
  end.

Definition is_space (c : ascii) : bool :=
  let n := nat_of_ascii c in
  ((9 <=? n)%nat && (n <=? 13)%nat) || ((28 <=? n)%nat && (n <=? 32)%nat).

Definition digit_of (c : ascii) : option Z :=
  let n := Z.of_nat (nat_of_ascii c) in
  if (48 <=? n) && (n <=? 57) then Some (n - 48) else None.

Fixpoint lstrip (l : list ascii) : list ascii :=
  match l with
  | c :: l' => if is_space c then lstrip l' else l
  | [] => []
  end.

Definition strip (l : list ascii) : list ascii :=
  rev (lstrip (rev (lstrip l))).

(** The digits after a first digit; a single underscore may sit between
    two digits. *)
Fixpoint int_digits (acc : Z) (l : list ascii) : option Z :=
  match l with
  | [] => Some acc
  | c :: l' =>
      match digit_of c with
      | Some d => int_digits (10 * acc + d) l'
      | None =>
          if Ascii.eqb c "_" then
            match l' with
            | c2 :: l'' =>
                match digit_of c2 with
                | Some d => int_digits (10 * acc + d) l''
                | None => None
                end
            | [] => None
            end
          else None
      end
  end.

Definition int_unsigned (l : list ascii) : option Z :=
  match l with
  | c :: l' =>
      match digit_of c with
      | Some d => int_digits d l'
      | None => None
      end
  | [] => None
  end.

(** [int(s)] for text [s], base 10: surrounding white space, a sign,
    decimal digits.  [None] stands for [ValueError].  The model is
    [int()] on ASCII text of up to 4300 characters; digits and blanks
    outside ASCII, and the refusal of more than 4300 digits, are not
    covered. *)
Definition int_of_str (s : string) : option Z :=
  match strip (list_ascii_of_string s) with
  | "-"%char :: l => Z.opp <$> int_unsigned l
  | "+"%char :: l => int_unsigned l
  | l => int_unsigned l
  end.

Definition digit_char (d : Z) : ascii := ascii_of_nat (Z.to_nat (48 + d)).

Fixpoint str_pos_go (fuel : nat) (n : Z) (acc : string) : string :=
  match fuel with
  | O => acc
  | S fuel' =>
      let acc' := String (digit_char (n mod 10)) acc in
      if n <? 10 then acc' else str_pos_go fuel' (n / 10) acc'
  end.

(** [str(n)] / [f'{n}'] for an integer *)
Definition str_of_int (n : Z) : string :=
  if n <? 0 then String "-" (str_pos_go (S (Z.to_nat (Z.log2 (- n)))) (- n) "")
  else str_pos_go (S (Z.to_nat (Z.log2 n))) n "".

(** ** The state-and-exception monad *)

Definition M (S A : Type) : Type := S -> outcome A * S.

Definition ret {S A} (a : A) : M S A := fun s => (Ret a, s).

Definition raise {S A} (e : exn) : M S A := fun s => (Raise e, s).

Definition bind {S A B} (m : M S A) (k : A -> M S B) : M S B :=
  fun s =>
    match m s with
    | (Ret a, s') => k a s'
    | (Raise e, s') => (Raise e, s')
    end.

(** [try: m  except <those e with h e = Some k>: k] *)
Definition try_except {S A} (m : M S A) (h : exn -> option (M S A)) : M S A :=
  fun s =>
    match m s with
    | (Ret a, s') => (Ret a, s')
    | (Raise e, s') =>
        match h e with
        | Some k => k s'
        | None => (Raise e, s')
        end
    end.

(** A call that only reads the state. *)
Definition rd {S A} (f : S -> outcome A) : M S A := fun s => (f s, s).

(** A call that cannot fail. *)
Definition tot {S A} (f : S -> A * S) : M S A :=
  fun s => let '(a, s') := f s in (Ret a, s').

Declare Scope py_scope.
Delimit Scope py_scope with py.
Notation "x <- c1 ;; c2" := (bind c1 (fun x => c2))
  (at level 100, c1 at next level, right associativity) : py_scope.
Notation "c1 ;; c2" := (bind c1 (fun _ => c2))
  (at level 100, right associativity) : py_scope.
Local Open Scope py_scope.

(** ** The libraries the class calls *)

(** solid2 and [os.path.relpath] are taken as given, the latter for a
    path that is not empty ([__init__] calls it on [self.basedir] before
    anything else does).  [Model] is the type
    of solid2 objects; they are true in a boolean test (the class defines
    neither [__bool__] nor [__len__]), so an attribute that holds [False]
    or [None] until a solid2 object is assigned is an [option Model] and
    [if self._assembled:] asks whether it was assigned. *)
Class Library := {
  Raw : Type;                                   (* what render() returns *)
  Model : Type;
  Operation : Type;
  scad_render : option Model -> outcome string; (* the description text *)
  import_stl : string -> Model;
  scad : Operation -> Model -> Model;           (* operation.scad(model) *)
  os_path_relpath : string -> string -> string
}.

Section Node.
Context {L : Library}.

Record node := mkNode {
  name : string;
  operations : list Operation;
  src : string;
  basedir : string;
  build_dir : string;
  scad_file : string;
  stl_file : string;
  mesh_scad_file : string;
  mesh_stl_file : string;
  lock_file : string;
  local_stl : string;
  basepath : string;
  files : gset string;
  model : option Model;
  root : string;
  _assembled : option Model;
  rigid : bool                    (* class attribute, [True] by default *)
}.

Definition set_root (r : string) (n : node) : node :=
  mkNode (name n) (operations n) (src n) (basedir n) (build_dir n) (scad_file n)
         (stl_file n) (mesh_scad_file n) (mesh_stl_file n) (lock_file n)
         (local_stl n) (basepath n) (files n) (model n) r (_assembled n) (rigid n).

Definition set_model (m : option Model) (n : node) : node :=
  mkNode (name n) (operations n) (src n) (basedir n) (build_dir n) (scad_file n)
         (stl_file n) (mesh_scad_file n) (mesh_stl_file n) (lock_file n)
         (local_stl n) (basepath n) (files n) m (root n) (_assembled n) (rigid n).

Definition set__assembled (a : option Model) (n : node) : node :=
  mkNode (name n) (operations n) (src n) (basedir n) (build_dir n) (scad_file n)
         (stl_file n) (mesh_scad_file n) (mesh_stl_file n) (lock_file n)
         (local_stl n) (basepath n) (files n) (model n) (root n) a (rigid n).

(** The children of a node are nodes with a state of their own. *)
#[warnings="-register-all"] Inductive tree :=
| Tree (n : node) (children : list tree).

(** *** Staleness *)

Fixpoint getmtimes (paths : list string) (w : world) : outcome (list Z) :=
  match paths with
  | [] => Ret []
  | p :: ps =>
      match os_path_getmtime p w with
      | Raise e => Raise e
      | Ret t =>
          match getmtimes ps w with
          | Raise e => Raise e
          | Ret ts => Ret (t :: ts)
          end
      end
  end.

(** [max(l)] of a list of numbers; [ValueError] on the empty list. *)
Definition py_max (l : list Z) : outcome Z :=
  match l with
  | [] => Raise ValueError
  | t :: ts => Ret (foldr Z.max t ts)
  end.

(** The property [mtime]: it only reads the file system. *)
Definition mtime (n : node) (w : world) : outcome Z :=
  match getmtimes (elements (files n)) w with
  | Raise e => Raise e
  | Ret ts => py_max ts
  end.

Definition _up_to_date (n : node) (path : string) (w : world) : outcome bool :=
  if os_path_exists path w then
    match os_path_getmtime path w with
    | Raise e => Raise e
    | Ret t =>
        match mtime n w with
        | Raise e => Raise e
        | Ret lt => Ret (t =? lt)
        end
    end
  else Ret false.

(** *** The description file *)

Definition scad_code (n : node) : outcome string := scad_render (model n).

(** The progress line that [generate_scad] prints is not modelled. *)
Definition generate_scad (n : node) : M world unit :=
  fh <- open_w (scad_file n);;
  code <- rd (fun _ => scad_code n);;
  tot (fun w => (tt, fh_write fh code w));;
  now <- rd (fun w => Ret (time_time w));;
  lt <- rd (mtime n);;
  os_utime (scad_file n) (now, lt).

(** *** The lock file and the render job *)

Definition _stl_generation_locked (n : node) (w : world) : outcome bool :=
  match open_r (lock_file n) w with
  | Raise FileNotFoundError => Ret false
  | Raise e => Raise e
  | Ret text =>
      match int_of_str text with
      | None => Ret false                         (* except ValueError *)
      | Some pid =>
          match os_kill0 pid w with
          | Ret _ => Ret true
          | Raise ProcessLookupError => Ret false
          | Raise e => Raise e
          end
      end
  end.

Definition except_FileNotFoundError {S} (e : exn) : option (M S unit) :=
  match e with
  | FileNotFoundError => Some (ret tt)
  | _ => None
  end.

Definition generate_stl (n : node) : M world unit :=
  fresh <- rd (_up_to_date n (stl_file n));;
  if fresh then ret tt
  else if negb (rigid n) then ret tt
  else
    locked <- rd (_stl_generation_locked n);;
    if locked then ret tt
    else
      fh <- open_w (lock_file n);;
      try_except (os_remove (stl_file n)) except_FileNotFoundError;;
      proc <- tot (Popen ["openscad"; scad_file n; "-o"; stl_file n]);;
      tot (fun w => (tt, fh_write fh (str_of_int proc) w));;
      lt <- rd (mtime n);;
      raise (RenderStart (mkStlRenderStart proc (stl_file n) lt (lock_file n))).

(** [StlRenderStart.finish] and [StlRenderStart.wait] (their progress
    lines are not modelled). *)
Definition finish (job : StlRenderStart) : M world unit :=
  now <- rd (fun w => Ret (time_time w));;
  os_utime (job_stl_file job) (now, job_mtime job);;
  there <- rd (fun w => Ret (os_path_exists (job_lock_file job) w));;
  if there then os_remove (job_lock_file job) else ret tt.

Definition wait (job : StlRenderStart) : M world unit :=
  tot (proc_wait (job_proc job));;
  finish job.

(** *** Build directories *)

(** The handler [import ipdb; ipdb.set_trace(); pass]. *)
Definition ipdb_set_trace : M world unit :=
  fun w =>
    match w_debugger w with
    | DbgMissing => (Raise ModuleNotFoundError, w)
    | DbgContinue => (Ret tt, w)
    | DbgQuit => (Raise BdbQuit, w)
    end.

Fixpoint make_build_dirs_loop (path build_dirs : list string) : M world unit :=
  match path with
  | [] => ret tt
  | d :: path' =>
      let build_dirs' := (build_dirs ++ [d]) in
      let build_dir := join_slash build_dirs' in
      there <- rd (fun w => Ret (os_path_exists build_dir w));;
      (if there then ret tt
       else try_except (os_mkdir build_dir) (fun _ => Some ipdb_set_trace));;
      make_build_dirs_loop path' build_dirs'
  end.

Definition _make_build_dirs (n : node) : M world unit :=
  make_build_dirs_loop (split_slash (build_dir n)) [].

(** *** Assembly *)

Definition import_optimized (n : node) (w : world) : outcome (option Model) :=
  if rigid n then
    match _up_to_date n (stl_file n) w with
    | Raise e => Raise e
    | Ret true =>
        let basedir' := os_path_relpath (basedir n) (root n) in
        let local_stl' := os_path_join basedir' (local_stl n) in
        Ret (Some (import_stl local_stl'))
    | Ret false => Ret (model n)
    end
  else Ret (model n).

(** The methods a concrete node class supplies.  Each runs on the node
    and on the operating system, and may change both. *)
Class NodeClass := {
  render : M (node * world) Raw;
  validate : Raw -> M (node * world) unit;
  as_scad : Raw -> M (node * world) Model
}.

(** [AbstractBaseNode] itself: [render] and [as_scad] are not implemented
    and [validate] is not defined at all. *)
Definition AbstractBaseNode : NodeClass :=
  {| render := raise NotImplementedError;
     validate := fun _ => raise AttributeError;
     as_scad := fun _ => raise NotImplementedError |}.

Inductive method :=
| m_render | m_validate | m_as_scad | m_generate_scad | m_import_optimized
| m_scad.

(** The state [assemble] runs on: the node, the operating system, and a
    record of the calls made so far.  The record is not Python state: no
    method can read or change it. *)
Record ctx := mkCtx {
  self : node;
  os : world;
  calls : list method
}.

Definition call {A} (mth : method) (body : M (node * world) A) : M ctx A :=
  fun c =>
    let '(r, (n, w)) := body (self c, os c) in
    (r, mkCtx n w (calls c ++ [mth])).

(** A method that leaves the attributes of the node alone. *)
Definition on_world {A} (f : node -> M world A) : M (node * world) A :=
  fun '(n, w) => let '(r, w') := f n w in (r, (n, w')).

Definition get_self : M ctx node := fun c => (Ret (self c), c).

Definition set_self (f : node -> node) : M ctx unit :=
  fun c => (Ret tt, mkCtx (f (self c)) (os c) (calls c)).

Context {C : NodeClass}.

Fixpoint apply_operations (ops : list Operation) (assembled : Model) : M ctx Model :=
  match ops with
  | [] => ret assembled
  | operation :: ops' =>
      assembled' <- call m_scad (ret (scad operation assembled));;
      apply_operations ops' assembled'
  end.

Definition assemble (root_arg : option string) : M ctx Model :=
  s <- get_self;;
  match _assembled s with
  | Some cached => ret cached
  | None =>
      match root_arg with
      | Some r => if bool_decide (r = "") then ret tt else set_self (set_root r)
      | None => ret tt
      end;;
      rendered <- call m_render render;;
      call m_validate (validate rendered);;
      m <- call m_as_scad (as_scad rendered);;
      set_self (set_model (Some m));;
      call m_generate_scad (on_world generate_scad);;
      optimized <- call m_import_optimized (on_world (fun n => rd (import_optimized n)));;
      (* self.model was assigned three lines up: it is a solid2 object *)
      assembled <- match optimized with
                   | Some a => ret a
                   | None => raise TypeError
                   end;;
      s' <- get_self;;
      assembled <- apply_operations (operations s') assembled;;
      set_self (set__assembled (Some assembled));;
      ret assembled
  end.

(** *** The walk over the tree *)

(** The two calls that [trigger_stl] makes on the node itself. *)
Inductive visit :=
| v_assemble
| v_generate_stl.

(** The calls made during a walk, each with the position of the node it
    was made on: the path of child indices from the root.  Like [calls],
    the trace is not Python state. *)
Definition trace := list (list nat * visit).

Fixpoint trigger_stl (pos : list nat) (t : tree) (w : world) (tr : trace)
  {struct t} : outcome unit * (tree * world * trace) :=
  match t with
  | Tree n children =>
      let tr1 := tr ++ [(pos, v_assemble)] in
      let '(r, c) := assemble None (mkCtx n w []) in
      match r with
      | Raise e => (Raise e, (Tree (self c) children, os c, tr1))
      | Ret _ =>
          let '(r2, (children', w2, tr2)) :=
            (fix each (i : nat) (cs : list tree) (w : world) (tr : trace) {struct cs}
               : outcome unit * (list tree * world * trace) :=
               match cs with
               | [] => (Ret tt, ([], w, tr))
               | child :: rest =>
                   let '(r, (child', w', tr')) :=
                     trigger_stl (pos ++ [i]) child w tr in
                   match r with
                   | Raise e => (Raise e, (child' :: rest, w', tr'))
                   | Ret _ =>
                       let '(r', (rest', w'', tr'')) := each (S i) rest w' tr' in
                       (r', (child' :: rest', w'', tr''))
                   end
               end) 0%nat children (os c) tr1 in
          match r2 with
          | Raise e => (Raise e, (Tree (self c) children', w2, tr2))
          | Ret _ =>
              let tr3 := tr2 ++ [(pos, v_generate_stl)] in
              let '(r3, w3) := generate_stl (self c) w2 in
              (r3, (Tree (self c) children', w3, tr3))
          end
      end
  end.

(** The loop [for child in self.children: child.trigger_stl()], the
    children numbered from [i]. *)
Fixpoint trigger_children (pos : list nat) (i : nat) (cs : list tree)
  (w : world) (tr : trace) : outcome unit * (list tree * world * trace) :=
  match cs with
  | [] => (Ret tt, ([], w, tr))
  | child :: rest =>
      let '(r, (child', w', tr')) := trigger_stl (pos ++ [i]) child w tr in
      match r with
      | Raise e => (Raise e, (child' :: rest, w', tr'))
      | Ret _ =>
          let '(r', (rest', w'', tr'')) := trigger_children pos (S i) rest w' tr' in
          (r', (child' :: rest', w'', tr''))
      end
  end.

(** *** The driver *)

(** [build_stls]: walk, wait for the job that a walk raises, walk again.
    The loop has no bound in Python; [fuel] bounds the number of walks,
    and [None] means that it ran out. *)
Fixpoint build_stls (fuel : nat) (t : tree) (w : world) (tr : trace)
  : option (outcome unit * (tree * world * trace)) :=
  match fuel with
  | O => None
  | S fuel' =>
      let '(r, (t', w', tr')) := trigger_stl [] t w tr in
      match r with
      | Raise (RenderStart job) =>
          match wait job w' with
          | (Ret _, w'') => build_stls fuel' t' w'' tr'
          | (Raise e, w'') => Some (Raise e, (t', w'', tr'))
          end
      | _ => Some (r, (t', w', tr'))
      end
  end.

(** *** Construction *)

Definition rstrip_slash (s : string) : string :=
  let fix go (l : list ascii) : list ascii :=
    match l with
    | "/"%char :: l' => go l'
    | _ => l
    end in
  string_of_list_ascii (rev (go (rev (list_ascii_of_string s)))).

(** [os.path.dirname(p)] of posixpath *)
Definition os_path_dirname (p : string) : string :=
  match split_slash p with
  | [] | [_] => ""
  | comps =>
      let head := join_slash (removelast comps) +:+ "/" in
      if bool_decide (rstrip_slash head = "") then head else rstrip_slash head
  end.

Definition py_true (s : string) : bool := negb (bool_decide (s = "")).

(** [os.path.relpath(p)], from the current directory: an empty path is
    refused. *)
Definition os_path_relpath_cwd (p : string) : M world string :=
  if bool_decide (p = "") then raise ValueError else ret (os_path_relpath p ".").

(** [__init__(self, *args, name=None)].  [class_name], [class_file] and
    [class_rigid] are [self.__class__.__name__], the file that defines the
    class and its [rigid] attribute; [SOLID_BUILD_DIR] is the environment
    variable; [args] holds [str(arg)] for each positional argument. *)
Definition init (class_name class_file : string) (class_rigid : bool)
    (SOLID_BUILD_DIR : option string) (args : list string)
    (name_kw : option string) : M world node :=
  let given := py_true (default "" name_kw) in
  let name' := if given then default "" name_kw else join_comma args in
  let self_name := if given then default "" name_kw else class_name in
  let build_dir0 := default "_build" SOLID_BUILD_DIR in
  let basedir' := os_path_dirname class_file in
  rel_build <- os_path_relpath_cwd build_dir0;;
  rel_base <- os_path_relpath_cwd basedir';;
  let build_dir' := os_path_join rel_build rel_base in
  let script := drop_last3 (List.last (split_slash class_file) "") in
  let basename := if py_true name' then script +:+ "-" +:+ name' else script in
  let basepath' := os_path_join build_dir' basename in
  let n :=
    {| name := self_name;
       operations := [];
       src := class_file;
       basedir := basedir';
       build_dir := build_dir';
       scad_file := basepath' +:+ ".scad";
       stl_file := basepath' +:+ ".stl";
       mesh_scad_file := basepath' +:+ ".mesh.scad";
       mesh_stl_file := basepath' +:+ ".mesh.stl";
       lock_file := basepath' +:+ ".stl.lock";
       local_stl := basename +:+ ".stl";
       basepath := basepath';
       files := {[ class_file ]};
       model := None;
       root := basedir';
       _assembled := None;
       rigid := class_rigid |} in
  _make_build_dirs n;;
  ret n.

End Node.

Arguments node : clear implicits.
Arguments node {L}.

(** ** More of the class: transformations and the mesh import *)

Section Transformations.
Context {L : Library}.

Definition set_operations (ops : list Operation) (n : node) : node :=
  mkNode (name n) ops (src n) (basedir n) (build_dir n) (scad_file n)
         (stl_file n) (mesh_scad_file n) (mesh_stl_file n) (lock_file n)
         (local_stl n) (basepath n) (files n) (model n) (root n) (_assembled n)
         (rigid n).

(** The module [.operations] is not at hand; its two constructors are
    taken as given.  [Translation] is handed the node, here as it is at
    the call. *)
Class OperationsModule := {
  Angle : Type;
  Axis : Type;
  Vector : Type;
  Rotation : Angle -> Axis -> Operation;
  Translation : node -> Vector -> Operation
}.

Context {O : OperationsModule}.

(** [rotate] and [translate] return [self], here the node with the
    operation queued. *)
Definition rotate (angle : Angle) (axis : Axis) (n : node) : node :=
  set_operations (operations n ++ [Rotation angle axis]) n.

Definition translate (translation : Vector) (n : node) : node :=
  set_operations (operations n ++ [Translation n translation]) n.

(** [generate_mesh]: the statement after its [return] is never reached. *)
Definition generate_mesh (n : node) : Model :=
  let basedir' := os_path_relpath (basedir n) (root n) in
  let local_stl' := os_path_join basedir' (local_stl n) in
  import_stl local_stl'.

End Transformations.

(** ** Vocabulary of the statements *)

Section Vocabulary.
Context {L : Library}.

Definition stored_mtime (w : world) (p : string) : option Z :=
  e_mtime <$> w_fs w !! p.

(** [t] is the logical time of [n]: the maximum last-modification time
    over its contributing files. *)
Definition logical_time (n : node) (w : world) (t : Z) : Prop :=
  (∃ p, p ∈ files n ∧ stored_mtime w p = Some t) ∧
  (∀ p, p ∈ files n → ∃ t', stored_mtime w p = Some t' ∧ t' <= t).

(** Nothing but a regular file may sit at [p]. *)
Definition no_directory (w : world) (p : string) : Prop :=
  ∀ e, w_fs w !! p = Some e → e_kind e <> Directory.

(** The identifier stored in the lock file of [n], when the file is there
    and its content parses as an integer. *)
Definition lock_owner (n : node) (w : world) : option Z :=
  match open_r (lock_file n) w with
  | Ret text => int_of_str text
  | Raise _ => None
  end.


Definition live (w : world) (pid : Z) : Prop := is_Some (w_procs w !! pid).

(** The lock of [n] is held by a live process. *)
Definition held_by_live_process (n : node) (w : world) : Prop :=
  exists pid, lock_owner n w = Some pid /\ live w pid.

(** [pid] fits the C type of a process identifier. *)
Definition pid_t (pid : Z) : Prop := - 2 ^ 31 <= pid < 2 ^ 31.

(** The liveness probe of the lock owner, if there is one, gives an
    answer: the identifier is in range, and the process, if alive, may be
    signalled by the invoking process. *)
Definition probe_answers (n : node) (w : world) : Prop :=
  forall pid, lock_owner n w = Some pid ->
    pid_t pid /\ forall p, w_procs w !! pid = Some p -> p_foreign p = false.

(** The lock and the binary are two paths, neither is a directory, and
    neither is a contributing file. *)
Definition artifacts_apart (n : node) (w : world) : Prop :=
  no_directory w (lock_file n) /\ no_directory w (stl_file n) /\
  lock_file n <> stl_file n /\
  (lock_file n ∉ files n) /\ (stl_file n ∉ files n).

(** The command line of the renderer for [n]. *)
Definition renderer_argv (n : node) : list string :=
  ["openscad"; scad_file n; "-o"; stl_file n].

(** One round of the loop of [_make_build_dirs]: the directory is looked
    for and, if missing, created; a failure ends in the debugger. *)
Definition ensure_dir (p : string) : M world unit :=
  there <- rd (fun w => Ret (os_path_exists p w));;
  if there then ret tt
  else try_except (os_mkdir p) (fun _ => Some ipdb_set_trace).

(** The order the specification gives for one walk: the node is
    assembled first, then each child is walked, in the listed order, and
    the binary of the node itself is generated last. *)
Fixpoint build_order (pos : list nat) (t : tree) : trace :=
  match t with
  | Tree _ children =>
      (pos, v_assemble)
        :: (fix each (i : nat) (cs : list tree) : trace :=
              match cs with
              | [] => []
              | child :: rest => build_order (pos ++ [i]) child ++ each (S i) rest
              end) 0%nat children
        ++ [(pos, v_generate_stl)]
  end.



Context {C : NodeClass}.

(** [assemble()] called once for each entry of [roots], one call after
    the other on the same node. *)
Fixpoint assemble_many (roots : list (option string)) : M ctx (list Model) :=
  match roots with
  | [] => ret []
  | r :: rs =>
      m <- assemble r;;
      ms <- assemble_many rs;;
      ret (m :: ms)
  end.

(** The calls of one assembly that is not answered from the cache: each
    step once, each queued operation once. *)
Definition assembly_calls (n : node) : list method :=
  [m_render; m_validate; m_as_scad; m_generate_scad; m_import_optimized]
    ++ replicate (length (operations n)) m_scad.

(** The build directory of a node of class file [class_file], under the
    setting [SOLID_BUILD_DIR] of the environment. *)
Definition build_dir_for (SOLID_BUILD_DIR : option string) (class_file : string) : string :=
  os_path_join (os_path_relpath (default "_build" SOLID_BUILD_DIR) ".")
               (os_path_relpath (os_path_dirname class_file) ".").

(** The order of the specification, carried out call by call.  A
    position is the path of child indices from the root of the tree. *)

(** The node at a position, and the tree with another node there. *)
Fixpoint node_at (pos : list nat) (t : tree) : option node :=
  match pos, t with
  | [], Tree n _ => Some n
  | i :: pos', Tree _ cs => cs !! i ≫= node_at pos'
  end.

Fixpoint set_node_at (pos : list nat) (n' : node) (t : tree) : tree :=
  match pos, t with
  | [], Tree _ cs => Tree n' cs
  | i :: pos', Tree n cs => Tree n (alter (set_node_at pos' n') i cs)
  end.

(** One call, made for itself: [assemble()] or [generate_stl()] is called
    on the node at the position, on the operating system as it is, and
    the node is put back as the call has left it. *)
Definition perform (ev : list nat * visit) (t : tree) (w : world)
  : outcome unit * (tree * world) :=
  match node_at ev.1 t with
  | None => (Ret tt, (t, w))
  | Some n =>
      match ev.2 with
      | v_assemble =>
          let '(r, c) := assemble None (mkCtx n w []) in
          (match r with Ret _ => Ret tt | Raise e => Raise e end,
           (set_node_at ev.1 (self c) t, os c))
      | v_generate_stl =>
          let '(r, w') := generate_stl n w in
          (r, (t, w'))
      end
  end.

(** The calls of a list, one after the other, up to the first that
    raises. *)
Fixpoint perform_all (evs : trace) (t : tree) (w : world)
  : outcome unit * (tree * world) :=
  match evs with
  | [] => (Ret tt, (t, w))
  | ev :: evs' =>
      match perform ev t w with
      | (Ret _, (t', w')) => perform_all evs' t' w'
      | (Raise e, s) => (Raise e, s)
      end
  end.


End Vocabulary.

(** ** A concrete library, node class and machine, to run the code on *)

(** Models are their own description text. *)
Definition text_library : Library :=
  {| Raw := string;
     Model := string;
     Operation := string;
     scad_render := fun m =>
       match m with Some s => Ret s | None => Raise AttributeError end;
     import_stl := fun p => "import " +:+ p;
     scad := fun op m => op +:+ " " +:+ m;
     os_path_relpath := fun p start => if bool_decide (p = start) then "." else p |}.

Definition CubeNode : @NodeClass text_library :=
  {| render := ret ("cube(1);" : @Raw text_library);
     validate := fun _ => ret tt;
     as_scad := fun rendered => ret (rendered : @Model text_library) |}.

(** Operations on description text. *)
Definition text_operations : @OperationsModule text_library :=
  {| Angle := string;
     Axis := string;
     Vector := string;
     Rotation := fun angle axis => ("rotate(" +:+ angle +:+ "," +:+ axis +:+ ")" : @Operation text_library);
     Translation := fun _ v => ("translate(" +:+ v +:+ ")" : @Operation text_library) |}.

Definition file (content : string) (t : Z) : entry := mkEntry (Regular content) t t.

Definition dir (t : Z) : entry := mkEntry Directory t t.

(** The renderer of the test machine: the binary is the description
    text in brackets; without a description it fails and writes nothing. *)
Definition test_openscad (src : option string) : option string * Z :=
  match src with
  | Some text => (Some ("[" +:+ text +:+ "]"), 0)
  | None => (None, 1)
  end.

(** The file stamps of the test machine are whole tens: [os.utime]
    rounds a time down to the ten below. *)
Definition whole_tens (t : Z) : Z := 10 * (t / 10).

(** A machine at time 500: the invoking process is 4000, process 1
    belongs to root, nothing is refused, the user of the debugger
    resumes, and file stamps are whole tens. *)
Definition machine (fs : gmap string entry) : world :=
  {| w_fs := fs;
     w_clock := 500;
     w_procs := {[ 1 := mkProcess ["init"] true; 4000 := mkProcess ["python"] false ]};
     w_pid := 4000;
     w_next_pid := 4001;
     w_mkdir_denied := ∅;
     w_openscad := test_openscad;
     w_debugger := DbgContinue;
     w_kept := whole_tens |}.

(** The class file of [Cube], last changed at time 100. *)
Definition sources : gmap string entry :=
  {[ "parts/cube.py" := file "class Cube" 100; "parts" := dir 90 ]}.

(** The node [Cube(name='a')] of class file [parts/cube.py]. *)
Definition cube : @node text_library :=
  {| name := "a";
     operations := [];
     src := "parts/cube.py";
     basedir := "parts";
     build_dir := "_build/parts";
     scad_file := "_build/parts/cube-a.scad";
     stl_file := "_build/parts/cube-a.stl";
     mesh_scad_file := "_build/parts/cube-a.mesh.scad";
     mesh_stl_file := "_build/parts/cube-a.mesh.stl";
     lock_file := "_build/parts/cube-a.stl.lock";
     local_stl := "cube-a.stl";
     basepath := "_build/parts/cube-a";
     files := {[ "parts/cube.py" ]};
     model := None;
     root := "parts";
     _assembled := None;
     rigid := true |}.

(** The file system once [cube] is constructed. *)
Definition built_fs : gmap string entry :=
  <[ "_build/parts" := dir 500 ]> (<[ "_build" := dir 500 ]> sources).

Definition built : world := machine built_fs.


(** [cube] once [as_scad] has given its model. *)
Definition cube_model : @Model text_library := "cube(1);".

Definition cube_with_model : @node text_library := set_model (Some cube_model) cube.

(** [built] with a lock file that names process 1, which is alive and
    belongs to another user. *)
Definition foreign_lock : world :=
  machine (<[ "_build/parts/cube-a.stl.lock" := file "1" 400 ]> built_fs).

(** A renderer that writes a binary and still exits with status 3. *)
Definition complaining_openscad (src : option string) : option string * Z :=
  (Some "solid", 3).

(** The render job of [cube] in flight, on a machine with that renderer. *)
Definition cube_job : StlRenderStart :=
  {| job_proc := 4001;
     job_stl_file := "_build/parts/cube-a.stl";
     job_mtime := 100;
     job_lock_file := "_build/parts/cube-a.stl.lock" |}.

Definition in_flight : world :=
  {| w_fs := <[ "_build/parts/cube-a.stl.lock" := file "4001" 500 ]> built_fs;
     w_clock := 500;
     w_procs := <[ 4001 := mkProcess (renderer_argv cube) false ]> (w_procs built);
     w_pid := 4000;
     w_next_pid := 4002;
     w_mkdir_denied := ∅;
     w_openscad := complaining_openscad;
     w_debugger := DbgContinue;
     w_kept := whole_tens |}.

(** The same job on a machine whose renderer fails and writes nothing. *)
Definition failed_in_flight : world :=
  {| w_fs := w_fs in_flight;
     w_clock := 500;
     w_procs := w_procs in_flight;
     w_pid := 4000;
     w_next_pid := 4002;
     w_mkdir_denied := ∅;
     w_openscad := fun _ => (None, 1);
     w_debugger := DbgContinue;
     w_kept := whole_tens |}.

(** A machine where [_build] is there already but belongs to someone
    else: nothing may be created at [_build/parts]. *)
Definition read_only : world :=
  {| w_fs := <[ "_build" := dir 50 ]> sources;
     w_clock := 500;
     w_procs := w_procs (machine sources);
     w_pid := 4000;
     w_next_pid := 4001;
     w_mkdir_denied := {[ "_build/parts" ]};
     w_openscad := test_openscad;
     w_debugger := DbgContinue;
     w_kept := whole_tens |}.

(** A gear box made of two gears, the second with a pin of its own. *)
Definition part (base : string) : @node text_library :=
  {| name := base;
     operations := [];
     src := "parts/" +:+ base +:+ ".py";
     basedir := "parts";
     build_dir := "_build/parts";
     scad_file := "_build/parts/" +:+ base +:+ ".scad";
     stl_file := "_build/parts/" +:+ base +:+ ".stl";
     mesh_scad_file := "_build/parts/" +:+ base +:+ ".mesh.scad";
     mesh_stl_file := "_build/parts/" +:+ base +:+ ".mesh.stl";
     lock_file := "_build/parts/" +:+ base +:+ ".stl.lock";
     local_stl := base +:+ ".stl";
     basepath := "_build/parts/" +:+ base;
     files := {[ "parts/" +:+ base +:+ ".py" ]};
     model := None;
     root := "parts";
     _assembled := None;
     rigid := true |}.

Definition gearbox : @tree text_library :=
  Tree (part "box") [Tree (part "gear1") []; Tree (part "gear2") [Tree (part "pin") []]].

(** The sources of the gear box; the first gear is built already. *)
Definition gearbox_fs : gmap string entry :=
  {[ "parts/box.py" := file "class Box" 100;
     "parts/gear1.py" := file "class Gear1" 110;
     "parts/gear2.py" := file "class Gear2" 120;
     "parts/pin.py" := file "class Pin" 130;
     "_build/parts/gear1.stl" := file "[gear1]" 110 ]}.

(** The gear box with every binary built and stamped. *)
Definition gearbox_built_fs : gmap string entry :=
  <[ "_build/parts/box.stl" := file "[box]" 100 ]>
    (<[ "_build/parts/gear2.stl" := file "[gear2]" 120 ]>
       (<[ "_build/parts/pin.stl" := file "[pin]" 130 ]> gearbox_fs)).

(** A node like [n] with the contributing files [fs], as a class that
    collects the files of its children leaves it. *)
Definition with_files (fs : gset string) (n : @node text_library) : @node text_library :=
  mkNode (name n) (operations n) (src n) (basedir n) (build_dir n) (scad_file n)
         (stl_file n) (mesh_scad_file n) (mesh_stl_file n) (lock_file n)
         (local_stl n) (basepath n) fs (model n) (root n) (_assembled n) (rigid n).

(** [built] with the description of [cube] written and stamped. *)
Definition described : world :=
  machine (<[ "_build/parts/cube-a.scad" := mkEntry (Regular "cube(1);") 500 100 ]> built_fs).

(** [described] with the class file last changed at time 103. *)
Definition described_odd : world :=
  machine (<[ "parts/cube.py" := file "class Cube" 103 ]> (w_fs described)).

(** [described] with the binary of [cube] built and stamped. *)
Definition rendered : world :=
  machine (<[ "_build/parts/cube-a.stl" := mkEntry (Regular "[cube(1);]") 500 100 ]>
             (<[ "_build/parts/cube-a.scad" := mkEntry (Regular "cube(1);") 500 100 ]> built_fs)).

(** [cube] with a rotation and then a translation queued. *)
Definition turned_cube : @node text_library :=
  translate (O := text_operations) "1,0,0" (rotate (O := text_operations) "90" "z" cube).

(** [built] with a lock left by process 31337, which is gone. *)
Definition stale_lock : world :=
  machine (<[ "_build/parts/cube-a.stl.lock" := file "31337" 400 ]> built_fs).

(** [built] with a lock whose number fits no C [int]. *)
Definition huge_lock : world :=
  machine (<[ "_build/parts/cube-a.stl.lock" := file "99999999999" 400 ]> built_fs).

Section DriverVocabulary.
Context {L : Library}.

(** What the renderer finds at the description path of [n]. *)
Definition description (n : node) (w : world) : option string :=
  match open_r (scad_file n) w with
  | Ret text => Some text
  | Raise _ => None
  end.

(** The three artifacts of [n] are three paths. *)
Definition three_paths (n : node) : Prop :=
  scad_file n <> stl_file n /\ scad_file n <> lock_file n /\ lock_file n <> stl_file n.

(** The calls of one walk over a leaf at the root. *)
Definition leaf_walk : trace := [([], v_assemble); ([], v_generate_stl)].

End DriverVocabulary.

(** A renderer that fails and writes nothing. *)
Definition broken_openscad (src : option string) : option string * Z := (None, 1).

(** [cube], assembled, on [described] and on the same machine with the
    broken renderer. *)
Definition assembled_cube : @node text_library :=
  set__assembled (Some cube_model) cube_with_model.

Definition described_broken : world :=
  {| w_fs := w_fs described;
     w_clock := 500;
     w_procs := w_procs described;
     w_pid := 4000;
     w_next_pid := 4001;
     w_mkdir_denied := ∅;
     w_openscad := broken_openscad;
     w_debugger := DbgContinue;
     w_kept := whole_tens |}.

(** * Properties *)

(** ** The model runs *)

Example split_slash_ex : split_slash "_build/parts/gear" = ["_build"; "parts"; "gear"].
Proof. reflexivity. Qed.

Example int_of_str_ex :
  int_of_str " 4242
" = Some 4242 /\ int_of_str "-7" = Some (-7) /\ int_of_str "1_000" = Some 1000
  /\ int_of_str "" = None /\ int_of_str "12a" = None /\ int_of_str "1__0" = None
  /\ int_of_str "_1" = None /\ int_of_str "+ 1" = None.
Proof. repeat split; reflexivity. Qed.

Example str_of_int_ex :
  str_of_int 0 = "0" /\ str_of_int 4242 = "4242" /\ str_of_int (-15) = "-15"
  /\ str_of_int 1000 = "1000" /\ str_of_int 9 = "9" /\ str_of_int 10 = "10".
Proof. repeat split; reflexivity. Qed.

Example os_path_dirname_ex :
  os_path_dirname "/a" = "/" /\ os_path_dirname "a/b/c" = "a/b"
  /\ os_path_dirname "a" = "" /\ os_path_dirname "a//b" = "a".
Proof. repeat split; reflexivity. Qed.

Example init_cube :
  init (L := text_library) "Cube" "parts/cube.py" true None [] (Some "a")
    (machine sources) = (Ret cube, built).
Proof. vm_compute. reflexivity. Qed.

Lemma split_slash_nonempty (s : string) : split_slash s <> [].
Proof.
  destruct s as [|c s]; simpl; [discriminate|].
  destruct (Ascii.eqb c "/"); [discriminate|].
  destruct (split_slash s); discriminate.
Qed.

Lemma join_split_slash (s : string) : join_slash (split_slash s) = s.
Proof.
  induction s as [|c s IH]; [reflexivity|].
  pose proof (split_slash_nonempty s) as Hne.
  simpl. destruct (Ascii.eqb_spec c "/") as [->|Hc];
    destruct (split_slash s) as [|x xs]; try congruence;
    destruct xs; simpl in *; subst; reflexivity.
Qed.

(** The components of a path hold no slash, and a list of such
    components is what [split] gives back of their [join]. *)
Lemma slash_free_split (s : string) :
  Forall (fun x => slash_free x = true) (split_slash s).
Proof.
  induction s as [|c s IH]; simpl; [by repeat constructor|].
  destruct (Ascii.eqb c "/") eqn:Hc; [by constructor|].
  destruct (split_slash s) as [|x xs]; [by constructor; [simpl; rewrite Hc|]|].
  inversion IH as [|? ? Hx Hxs]; subst. constructor; [|done]. simpl. by rewrite Hc.
Qed.

Lemma split_slash_free (x : string) : slash_free x = true -> split_slash x = [x].
Proof.
  induction x as [|c x IH]; simpl; [done|].
  intros [Hc Hx]%andb_prop. apply negb_true_iff in Hc. rewrite Hc, (IH Hx). done.
Qed.

Lemma split_slash_app (x r : string) :
  slash_free x = true -> split_slash (x +:+ "/" +:+ r) = x :: split_slash r.
Proof.
  induction x as [|c x IH]; simpl; [done|].
  intros [Hc Hx]%andb_prop. apply negb_true_iff in Hc. rewrite Hc, (IH Hx). done.
Qed.

Lemma split_join_slash (l : list string) :
  l <> [] -> Forall (fun x => slash_free x = true) l -> split_slash (join_slash l) = l.
Proof.
  induction l as [|x l IH]; [done|]. intros _ Hl.
  inversion Hl as [|? ? Hx Hl']; subst.
  destruct l as [|y l]; [by apply split_slash_free|].
  change (join_slash (x :: y :: l)) with (x +:+ "/" +:+ join_slash (y :: l)).
  rewrite split_slash_app by done. by rewrite IH.
Qed.

Lemma append_assoc (a b c : string) : (a +:+ b) +:+ c = a +:+ (b +:+ c).
Proof. induction a as [|x a IH]; [done|]. exact (f_equal (String x) IH). Qed.

Lemma join_slash_snoc (l : list string) (d : string) :
  l <> [] -> join_slash (l ++ [d]) = join_slash l +:+ "/" +:+ d.
Proof.
  induction l as [|x l IH]; [done|]. intros _.
  destruct l as [|y l]; [done|].
  change (join_slash ((x :: y :: l) ++ [d]))
    with (x +:+ "/" +:+ join_slash ((y :: l) ++ [d])).
  rewrite IH by done.
  change (join_slash (x :: y :: l)) with (x +:+ "/" +:+ join_slash (y :: l)).
  by rewrite !append_assoc.
Qed.

Lemma parent_of_join (l : list string) (d : string) :
  l <> [] -> Forall (fun x => slash_free x = true) (l ++ [d]) ->
  parent_of (join_slash (l ++ [d])) = Some (join_slash l).
Proof.
  intros Hne Hl. unfold parent_of. rewrite split_join_slash; [|by destruct l|done].
  destruct l as [|x l]; [done|].
  transitivity (Some (join_slash (removelast ((x :: l) ++ [d])))).
  { by destruct l. }
  by rewrite removelast_last.
Qed.

(** ** Writing and reading a process identifier *)

Section PidText.

Lemma digit_char_cases (d : Z) :
  0 <= d < 10 ->
  digit_of (digit_char d) = Some d /\ is_space (digit_char d) = false /\
  digit_char d <> "-"%char /\ digit_char d <> "+"%char.
Proof.
  intros Hd.
  assert (Hcases : d = 0 \/ d = 1 \/ d = 2 \/ d = 3 \/ d = 4 \/ d = 5 \/ d = 6
                   \/ d = 7 \/ d = 8 \/ d = 9) by lia.
  repeat destruct Hcases as [->|Hcases]; try subst d; by vm_compute.
Qed.

Lemma str_pos_go_S (fuel : nat) (n : Z) (s : string) :
  str_pos_go (S fuel) n s =
  if n <? 10 then String (digit_char (n mod 10)) s
  else str_pos_go fuel (n / 10) (String (digit_char (n mod 10)) s).
Proof. reflexivity. Qed.

(** The digits written for [n] are read back as [n], in front of whatever
    follows them. *)
Lemma int_unsigned_str_pos_go (fuel : nat) (n : Z) (s : string) :
  0 <= n < 10 ^ Z.of_nat (S fuel) ->
  int_unsigned (list_ascii_of_string (str_pos_go (S fuel) n s))
  = int_digits n (list_ascii_of_string s).
Proof.
  revert n s. induction fuel as [|fuel IH]; intros n s Hn.
  - simpl. change (10 ^ Z.of_nat 1) with 10 in Hn.
    destruct (digit_char_cases n Hn) as (Hd & _).
    assert (n mod 10 = n) as -> by (apply Z.mod_small; lia).
    destruct (n <? 10); simpl; by rewrite Hd.
  - rewrite str_pos_go_S. destruct (Z.ltb_spec n 10) as [Hlt|Hge].
    + assert (n mod 10 = n) as -> by (apply Z.mod_small; lia).
      destruct (digit_char_cases n) as (Hd & _); [lia|]. simpl. by rewrite Hd.
    + rewrite IH.
      * destruct (digit_char_cases (n mod 10)) as (Hd & _).
        { apply Z.mod_pos_bound. lia. }
        simpl. rewrite Hd. f_equal. rewrite (Z.div_mod n 10) at 3 by lia. lia.
      * split; [apply Z.div_pos; lia|].
        apply Z.div_lt_upper_bound; [lia|].
        rewrite (Nat2Z.inj_succ (S fuel)), Z.pow_succ_r in Hn by lia. lia.
Qed.

Lemma str_pos_go_head (fuel : nat) (n : Z) (s : string) :
  0 <= n ->
  exists d rest, 0 <= d < 10 /\
    list_ascii_of_string (str_pos_go (S fuel) n s) = digit_char d :: rest.
Proof.
  revert n s. induction fuel as [|fuel IH]; intros n s Hn.
  - exists (n mod 10), (list_ascii_of_string s). split; [by apply Z.mod_pos_bound|].
    simpl. by destruct (n <? 10).
  - rewrite str_pos_go_S. destruct (Z.ltb_spec n 10) as [Hlt|Hge].
    + exists (n mod 10), (list_ascii_of_string s). split; [by apply Z.mod_pos_bound|done].
    + apply IH. apply Z.div_pos; lia.
Qed.

Lemma str_pos_go_no_space (fuel : nat) (n : Z) (s : string) :
  0 <= n ->
  Forall (fun c => is_space c = false) (list_ascii_of_string s) ->
  Forall (fun c => is_space c = false) (list_ascii_of_string (str_pos_go fuel n s)).
Proof.
  revert n s. induction fuel as [|fuel IH]; intros n s Hn Hs; [done|].
  assert (Hs' : Forall (fun c => is_space c = false)
                  (list_ascii_of_string (String (digit_char (n mod 10)) s))).
  { simpl. constructor; [|done].
    destruct (digit_char_cases (n mod 10)) as (_ & Hsp & _); [|done].
    apply Z.mod_pos_bound. lia. }
  rewrite str_pos_go_S. destruct (n <? 10); [done|].
  apply IH; [apply Z.div_pos; lia | done].
Qed.

Lemma strip_no_space (l : list ascii) :
  Forall (fun c => is_space c = false) l -> strip l = l.
Proof.
  assert (Hl : forall k, Forall (fun c => is_space c = false) k -> lstrip k = k).
  { intros [|c k] Hk; [done|]. simpl. inversion Hk as [|? ? Hc _]; subst. by rewrite Hc. }
  intros H. unfold strip. rewrite (Hl l H), Hl; [apply rev_involutive|].
  by apply Forall_rev.
Qed.

Lemma enough_fuel (n : Z) : 0 <= n -> n < 10 ^ Z.of_nat (S (Z.to_nat (Z.log2 n))).
Proof.
  intros Hn. rewrite Nat2Z.inj_succ, Z2Nat.id by apply Z.log2_nonneg.
  destruct (Z.eq_dec n 0) as [->|Hne]; [done|].
  pose proof (Z.log2_spec n) as [_ Hlt]; [lia|].
  eapply Z.lt_le_trans; [exact Hlt|].
  apply Z.pow_le_mono_l. pose proof (Z.log2_nonneg n). lia.
Qed.

Lemma int_of_str_of_nonneg (n : Z) : 0 <= n -> int_of_str (str_of_int n) = Some n.
Proof.
  intros Hn. unfold int_of_str, str_of_int.
  destruct (Z.ltb_spec n 0) as [?|_]; [lia|].
  rewrite strip_no_space by (by apply str_pos_go_no_space).
  pose proof (int_unsigned_str_pos_go _ n "" (conj Hn (enough_fuel n Hn))) as Hrd.
  destruct (str_pos_go_head (Z.to_nat (Z.log2 n)) n "" Hn) as (d & rest & Hd & Heq).
  rewrite Heq in *.
  destruct (digit_char_cases d Hd) as (_ & _ & Hminus & Hplus).
  destruct (digit_char d) as [[] [] [] [] [] [] [] []]; try done.
Qed.

(** [int(str(n)) == n] *)
Lemma int_of_str_of_int (n : Z) : int_of_str (str_of_int n) = Some n.
Proof.
  destruct (Z.le_gt_cases 0 n) as [Hn|Hn]; [by apply int_of_str_of_nonneg|].
  unfold int_of_str, str_of_int. destruct (Z.ltb_spec n 0) as [_|?]; [|lia].
  assert (Hpos : 0 <= - n) by lia.
  rewrite strip_no_space.
  2:{ change (list_ascii_of_string (String "-" ?s))
        with ("-"%char :: list_ascii_of_string s).
      constructor; [done | by apply str_pos_go_no_space]. }
  cbn [list_ascii_of_string].
  rewrite (int_unsigned_str_pos_go _ (- n) "" (conj Hpos (enough_fuel _ Hpos))).
  simpl. f_equal. lia.
Qed.

End PidText.

(** ** Running the monad *)

Ltac run :=
  repeat (unfold bind, ret, raise, rd, tot, try_except in *; simpl in * ).

Lemma bind_Ret {S A B} (f : M S A) (k : A -> M S B) (s s2 : S) (b : B) :
  bind f k s = (Ret b, s2) ->
  exists a s1, f s = (Ret a, s1) /\ k a s1 = (Ret b, s2).
Proof.
  unfold bind. destruct (f s) as [[a|e] s1]; [eauto | discriminate].
Qed.

(** ** Staleness: the logical time and the up-to-date check *)

Section Staleness.
Context {L : Library}.
Implicit Types (n : node) (w : world) (t : Z) (p : string).

Lemma stored_mtime_getmtime w p t :
  os_path_getmtime p w = Ret t <-> stored_mtime w p = Some t.
Proof.
  unfold os_path_getmtime, stored_mtime.
  destruct (w_fs w !! p); simpl; split; intros H; congruence.
Qed.

Lemma stored_mtime_exists w p :
  os_path_exists p w = true <-> is_Some (stored_mtime w p).
Proof.
  unfold os_path_exists, stored_mtime.
  destruct (w_fs w !! p); simpl; split; intros H;
    try done; try (by eexists); by destruct H.
Qed.

Lemma getmtimes_Ret w ps ts :
  getmtimes ps w = Ret ts <-> Forall2 (fun p t => stored_mtime w p = Some t) ps ts.
Proof.
  revert ts. induction ps as [|p ps IH]; intros ts; simpl.
  - split; [intros [= <-]; constructor | by inversion 1].
  - destruct (os_path_getmtime p w) as [t|e] eqn:Hp.
    + apply stored_mtime_getmtime in Hp.
      destruct (getmtimes ps w) as [ts'|e] eqn:Hps.
      * split.
        -- intros [= <-]. constructor; [done | by apply IH].
        -- inversion 1 as [|? t' ? ts'' Ht Hts]; subst.
           apply IH in Hts. congruence.
      * split; [done|]. inversion 1 as [|? t' ? ts'' Ht Hts]; subst.
        apply IH in Hts. congruence.
    + split; [done|]. inversion 1 as [|? t' ? ts'' Ht Hts]; subst.
      apply stored_mtime_getmtime in Ht. congruence.
Qed.

Lemma getmtimes_total w ps :
  (forall p, p ∈ ps -> is_Some (stored_mtime w p)) ->
  exists ts, getmtimes ps w = Ret ts.
Proof.
  induction ps as [|p ps IH]; intros Hall; simpl; [by eexists|].
  destruct (Hall p) as [t Ht]; [by left|].
  apply stored_mtime_getmtime in Ht. rewrite Ht.
  destruct IH as [ts ->]; [|by eexists].
  intros q Hq. apply Hall. by right.
Qed.

Lemma foldr_max_upper (t0 : Z) (ts : list Z) :
  t0 <= foldr Z.max t0 ts /\ Forall (fun x => x <= foldr Z.max t0 ts) ts.
Proof.
  induction ts as [|x ts [IH1 IH2]]; simpl; [split; [lia | constructor]|].
  split; [lia|]. constructor; [lia|].
  eapply Forall_impl; [exact IH2|]. simpl. intros; lia.
Qed.

Lemma foldr_max_elem (t0 : Z) (ts : list Z) : foldr Z.max t0 ts ∈ t0 :: ts.
Proof.
  induction ts as [|x ts IH]; simpl; [by left|].
  destruct (Z.max_spec x (foldr Z.max t0 ts)) as [[_ ->]|[_ ->]].
  - apply elem_of_cons in IH as [->|IH]; [by left | by right; right].
  - right. by left.
Qed.

Lemma py_max_Ret (ts : list Z) t :
  py_max ts = Ret t <-> t ∈ ts /\ Forall (fun x => x <= t) ts.
Proof.
  destruct ts as [|t0 ts]; simpl.
  - split; [done | intros [H _]; by apply elem_of_nil in H].
  - pose proof (foldr_max_upper t0 ts) as [Hu1 Hu2].
    pose proof (foldr_max_elem t0 ts) as Hel.
    split.
    + intros [= <-]. split; [done | by constructor].
    + intros [Hin Hle]. f_equal.
      rewrite Forall_forall in Hle. apply Hle in Hel.
      assert (t <= foldr Z.max t0 ts); [|lia].
      apply elem_of_cons in Hin as [->|Hin]; [done|].
      rewrite Forall_forall in Hu2. by apply Hu2.
Qed.

(** [mtime] computes the logical time, and fails exactly when there is
    none (a contributing file is missing). *)
Lemma mtime_logical_time n w t : mtime n w = Ret t <-> logical_time n w t.
Proof.
  unfold mtime, logical_time. split.
  - destruct (getmtimes (elements (files n)) w) as [ts|e] eqn:Hg; [|done].
    apply getmtimes_Ret in Hg. intros [Hin Hle]%py_max_Ret. split.
    + apply list_elem_of_lookup in Hin as [i Hi].
      destruct (Forall2_lookup_r _ _ _ _ _ Hg Hi) as (p & Hp & Hpt).
      exists p. split; [|done].
      apply elem_of_elements. by eapply list_elem_of_lookup_2.
    + intros p Hp. apply elem_of_elements, list_elem_of_lookup in Hp as [i Hi].
      destruct (Forall2_lookup_l _ _ _ _ _ Hg Hi) as (t' & Ht' & Hpt).
      exists t'. split; [done|].
      rewrite Forall_forall in Hle. apply Hle. by eapply list_elem_of_lookup_2.
  - intros [(p & Hp & Hpt) Hall].
    destruct (getmtimes_total w (elements (files n))) as [ts Hts].
    { intros q Hq%elem_of_elements. destruct (Hall q Hq) as (t' & -> & _). by eexists. }
    rewrite Hts. apply getmtimes_Ret in Hts. apply py_max_Ret. split.
    + apply elem_of_elements, list_elem_of_lookup in Hp as [i Hi].
      destruct (Forall2_lookup_l _ _ _ _ _ Hts Hi) as (t' & Ht' & Hpt').
      assert (t' = t) as -> by congruence. by eapply list_elem_of_lookup_2.
    + apply Forall_forall. intros x [i Hi]%list_elem_of_lookup.
      destruct (Forall2_lookup_r _ _ _ _ _ Hts Hi) as (q & Hq & Hqx).
      destruct (Hall q) as (t' & Ht' & Hle).
      { apply elem_of_elements. by eapply list_elem_of_lookup_2. }
      congruence.
Qed.

Lemma logical_time_unique n w t t' :
  logical_time n w t -> logical_time n w t' -> t = t'.
Proof. intros H1%mtime_logical_time H2%mtime_logical_time. congruence. Qed.

(** C1: the up-to-date check answers [True] exactly when the path exists
    and the modification time stored for it equals the logical time of
    the node, the maximum modification time over its contributing files;
    a stored time that is merely greater does not count. *)
Theorem up_to_date_iff_exact_stamp n (path : string) w :
  _up_to_date n path w = Ret true <->
  os_path_exists path w = true /\
  exists t, stored_mtime w path = Some t /\ logical_time n w t.
Proof.
  unfold _up_to_date. destruct (os_path_exists path w) eqn:Hex.
  - destruct (os_path_getmtime path w) as [t|e] eqn:Hm.
    + apply stored_mtime_getmtime in Hm.
      destruct (mtime n w) as [lt|e] eqn:Hlt.
      * apply mtime_logical_time in Hlt. split.
        -- intros [= Heq]. apply Z.eqb_eq in Heq as ->. eauto.
        -- intros [_ (t' & Ht' & Hl)]. f_equal. apply Z.eqb_eq.
           assert (t' = t) as -> by congruence.
           by eapply logical_time_unique.
      * split; [done|]. intros [_ (t' & _ & Hl%mtime_logical_time)]. congruence.
    + apply stored_mtime_exists in Hex as [t Ht].
      apply stored_mtime_getmtime in Ht. congruence.
  - split; [done | by intros [? _]].
Qed.

(** When the logical time is [t], the check is the comparison of the
    stored stamp with [t]: an older and a newer stamp both fail. *)
Lemma up_to_date_decided n (path : string) w t :
  logical_time n w t ->
  _up_to_date n path w = Ret (bool_decide (stored_mtime w path = Some t)).
Proof.
  intros Hl. pose proof Hl as Hm%mtime_logical_time.
  unfold _up_to_date, os_path_exists, os_path_getmtime, stored_mtime.
  destruct (w_fs w !! path) as [e|]; simpl.
  - rewrite Hm. f_equal. case_bool_decide as Hd.
    + apply Z.eqb_eq. congruence.
    + apply Z.eqb_neq. congruence.
  - reflexivity.
Qed.

End Staleness.

(** ** The description file *)

Section Description.
Context {L : Library}.
Implicit Types (n : node) (w : world) (t : Z) (p : string).

Lemma logical_time_frame n w w' t :
  (forall p, p ∈ files n -> w_fs w' !! p = w_fs w !! p) ->
  logical_time n w t -> logical_time n w' t.
Proof.
  intros Hfr [(p & Hp & Hpt) Hall]. unfold logical_time, stored_mtime in *. split.
  - exists p. split; [done|]. by rewrite Hfr.
  - intros q Hq. rewrite Hfr; [|done]. by apply Hall.
Qed.

(** A node whose only contributing file is its own source: the logical
    time is the modification time of that file. *)
Lemma logical_time_sole_source n w (s : string) t :
  files n = {[ s ]} -> stored_mtime w s = Some t -> logical_time n w t.
Proof.
  intros Hf Hs. unfold logical_time. rewrite Hf. split.
  - exists s. split; [set_solver | done].
  - intros p ->%elem_of_singleton. exists t. split; [done | lia].
Qed.

(** What a call of [generate_scad] that returns has done: the text is
    written, the logical time is read, and the file is given what the
    machine keeps of the clock and of the logical time. *)
Lemma generate_scad_Ret n w w' :
  generate_scad n w = (Ret tt, w') ->
  exists (text : string) (a t : Z),
    scad_code n = Ret text /\
    mtime n (set_fs <[scad_file n := mkEntry (Regular text) a (w_clock w)]> w) = Ret t /\
    w' = set_fs <[scad_file n := mkEntry (Regular text) (w_kept w (w_clock w))
                                         (w_kept w t)]> w.
Proof.
  unfold generate_scad. intros H.
  apply bind_Ret in H as (fh & w1 & Hopen & H).
  apply bind_Ret in H as (text & w1' & Hcode & H).
  unfold rd in Hcode. injection Hcode as Hcode <-.
  apply bind_Ret in H as ([] & w2 & Hwr & H).
  unfold tot in Hwr. injection Hwr as <-.
  apply bind_Ret in H as (now & w2' & Hnow & H).
  unfold rd, time_time in Hnow. injection Hnow as <- <-.
  apply bind_Ret in H as (t & w2' & Hmt & H).
  unfold rd in Hmt. injection Hmt as Hmt <-.
  assert (Hw2 : exists a, fh = scad_file n /\
            fh_write fh text w1
            = set_fs <[scad_file n := mkEntry (Regular text) a (w_clock w)]> w).
  { unfold open_w in Hopen.
    destruct (w_fs w !! scad_file n) as [[[c0|] a0 m0]|]; try discriminate;
      injection Hopen as <- <-; eexists; (split; [done|]).
    - unfold fh_write, set_fs. simpl. rewrite lookup_insert_eq. simpl.
      by rewrite insert_insert_eq.
    - unfold fh_write, set_fs. simpl. rewrite lookup_insert_eq. simpl.
      by rewrite insert_insert_eq. }
  destruct Hw2 as (a & -> & Hw2). rewrite Hw2 in *. clear Hw2 Hopen w1.
  unfold os_utime, os_utime_ns in H. simpl in H. rewrite lookup_insert_eq in H.
  simpl in H. injection H as <-. exists text, a, t.
  split; [done|]. split; [done|]. unfold set_fs. simpl. by rewrite insert_insert_eq.
Qed.


End Description.



(** ** Assembly is memoised *)

Section Assembly.
Context {L : Library} {C : NodeClass}.
Implicit Types (n : node) (w : world) (c : ctx) (m : Model).

Lemma call_Ret {A} mth (body : M (node * world) A) c (a : A) c1 :
  call mth body c = (Ret a, c1) ->
  exists n w, body (self c, os c) = (Ret a, (n, w))
              /\ c1 = mkCtx n w (calls c ++ [mth]).
Proof.
  unfold call. destruct (body (self c, os c)) as [r [n w]].
  intros [= -> <-]. eauto.
Qed.

Lemma on_world_Ret {A} (f : node -> M world A) n w (a : A) n' w' :
  on_world f (n, w) = (Ret a, (n', w')) -> n' = n.
Proof. unfold on_world. destruct (f n w). by intros [= _ <- _]. Qed.

Lemma apply_operations_run (ops : list Operation) m c :
  apply_operations ops m c =
  (Ret (foldl (fun a op => scad op a) m ops),
   mkCtx (self c) (os c) (calls c ++ replicate (length ops) m_scad)).
Proof.
  revert m c. induction ops as [|op ops IH]; intros m c; simpl.
  - unfold ret. destruct c. simpl. by rewrite app_nil_r.
  - unfold bind, call, ret. simpl. rewrite IH. simpl.
    by rewrite <- app_assoc.
Qed.

(** A node that holds an assembled model answers from the cache: the
    state, the operating system and the record of calls stay as they are. *)
Lemma assemble_cached (r : option string) c m :
  _assembled (self c) = Some m -> assemble r c = (Ret m, c).
Proof. intros H. unfold assemble, bind, get_self. simpl. by rewrite H. Qed.

Lemma assemble_many_cached (rs : list (option string)) c m :
  _assembled (self c) = Some m ->
  assemble_many rs c = (Ret (replicate (length rs) m), c).
Proof.
  intros H. induction rs as [|r rs IH]; simpl; [done|].
  unfold bind. rewrite (assemble_cached r c m H), IH. done.
Qed.

(** What a call that returns leaves behind. *)
Lemma assemble_Ret (r : option string) c m c1 :
  assemble r c = (Ret m, c1) ->
  _assembled (self c1) = Some m /\
  (c1 = c \/ calls c1 = calls c ++ assembly_calls (self c1)).
Proof.
  unfold assemble. intros H.
  apply bind_Ret in H as (s & c0 & Hget & H).
  unfold get_self in Hget. injection Hget as <- <-.
  destruct (_assembled (self c)) as [cached|] eqn:Hc.
  { injection H as <- <-. auto. }
  apply bind_Ret in H as ([] & ca & Hroot & H).
  assert (Hca : calls ca = calls c).
  { destruct r as [r|]; [case_bool_decide|]; by injection Hroot as <-. }
  apply bind_Ret in H as (rendered & c2 & (n2 & w2 & _ & ->)%call_Ret & H).
  apply bind_Ret in H as ([] & c3 & (n3 & w3 & _ & ->)%call_Ret & H).
  apply bind_Ret in H as (m0 & c4 & (n4 & w4 & _ & ->)%call_Ret & H).
  apply bind_Ret in H as ([] & c5 & [= <-] & H).
  apply bind_Ret in H as ([] & c6 & (n6 & w6 & _ & ->)%call_Ret & H).
  apply bind_Ret in H as (optimized & c7 & (n7 & w7 & _ & ->)%call_Ret & H).
  apply bind_Ret in H as (a & c8 & Ha & H).
  destruct optimized as [a'|]; [|discriminate]. injection Ha as <- <-.
  apply bind_Ret in H as (s' & c9 & [= <- <-] & H).
  apply bind_Ret in H as (a2 & c10 & Hops & H).
  rewrite apply_operations_run in Hops. injection Hops as <- <-.
  apply bind_Ret in H as ([] & c11 & [= <-] & H).
  injection H as <- <-. simpl. split; [done|]. right.
  rewrite Hca. unfold assembly_calls. simpl.
  rewrite <- !app_assoc. done.
Qed.

(** C3: once a call of [assemble] has returned a model, every later call
    on the node returns that same model from the cache and recomputes
    nothing: the node, the operating system and the record of calls are
    left as they are, so over any number of calls each of render,
    validate, as_scad, generate_scad and import_optimized ran at most once
    and each queued operation was applied at most once. *)
Theorem assemble_memoised (r : option string) c m c1 :
  assemble r c = (Ret m, c1) ->
  _assembled (self c1) = Some m /\
  (forall r' w' log',
      assemble r' (mkCtx (self c1) w' log') = (Ret m, mkCtx (self c1) w' log')) /\
  (forall rs, assemble_many rs c1 = (Ret (replicate (length rs) m), c1)) /\
  (calls c1 = calls c \/ calls c1 = calls c ++ assembly_calls (self c1)).
Proof.
  intros H. apply assemble_Ret in H as [Hcache Hcalls].
  split; [done|]. split; [|split].
  - intros r' w' log'. by apply assemble_cached.
  - intros rs. by apply assemble_many_cached.
  - destruct Hcalls as [->|Hcalls]; auto.
Qed.

(** The abstract base class cannot be assembled. *)
Lemma assemble_abstract (r : option string) c :
  _assembled (self c) = None ->
  fst (assemble (C := AbstractBaseNode) r c) = Raise NotImplementedError.
Proof.
  intros H. unfold assemble, bind, get_self. simpl. rewrite H.
  destruct r as [r|]; [case_bool_decide|]; reflexivity.
Qed.

End Assembly.

(** [cube] is assembled once; three more calls, one of them with another
    root, return the cached model and leave the five calls of the first
    assembly as the whole record. *)
Lemma assemble_memoised_witness :
  let c1 := snd (assemble (C := CubeNode) None (mkCtx cube built [])) in
  assemble (C := CubeNode) None (mkCtx cube built []) = (Ret cube_model, c1) /\
  assemble (C := CubeNode) (Some "elsewhere") c1 = (Ret cube_model, c1) /\
  assemble_many (C := CubeNode) [None; None; None] c1
    = (Ret [cube_model; cube_model; cube_model], c1) /\
  calls c1 = [m_render; m_validate; m_as_scad; m_generate_scad; m_import_optimized].
Proof.
  intros c1.
  assert (H : assemble (C := CubeNode) None (mkCtx cube built []) = (Ret cube_model, c1)).
  { vm_compute. reflexivity. }
  destruct (assemble_memoised (C := CubeNode) None _ _ _ H) as (_ & Hagain & Hmany & _).
  split; [exact H|]. split; [|split].
  - specialize (Hagain (Some "elsewhere") (os c1) (calls c1)).
    destruct c1; exact Hagain.
  - exact (Hmany [None; None; None]).
  - vm_compute. reflexivity.
Defined.

(** ** The lock file *)

Section Lock.
Context {L : Library}.
Implicit Types (n : node) (w : world) (t pid : Z) (p : string).

Lemma os_kill0_Ret w pid :
  os_kill0 pid w = Ret tt <->
  pid_t pid /\ exists pr, w_procs w !! pid = Some pr /\ p_foreign pr = false.
Proof.
  unfold os_kill0, pid_t. case_bool_decide as Hr.
  - destruct (w_procs w !! pid) as [pr|] eqn:Hp.
    + destruct (p_foreign pr) eqn:Hf.
      * split; [done|]. intros (_ & pr' & Hpr' & Hf'). congruence.
      * split; [|done]. intros _. split; [done|]. by exists pr.
    + split; [done|]. by intros (_ & pr' & Hpr' & _).
  - split; [done|]. by intros [? _].
Qed.

Lemma os_kill0_ProcessLookupError w pid :
  os_kill0 pid w = Raise ProcessLookupError <-> pid_t pid /\ w_procs w !! pid = None.
Proof.
  unfold os_kill0, pid_t. case_bool_decide as Hr.
  - destruct (w_procs w !! pid) as [pr|] eqn:Hp.
    + destruct (p_foreign pr) eqn:Hf; (split; [done | by intros [_ ?]]).
    + done.
  - split; [done|]. by intros [? _].
Qed.

Lemma os_kill0_PermissionError w pid :
  os_kill0 pid w = Raise PermissionError <->
  pid_t pid /\ exists pr, w_procs w !! pid = Some pr /\ p_foreign pr = true.
Proof.
  unfold os_kill0, pid_t. case_bool_decide as Hr.
  - destruct (w_procs w !! pid) as [pr|] eqn:Hp.
    + destruct (p_foreign pr) eqn:Hf.
      * split; [|done]. intros _. split; [done|]. by exists pr.
      * split; [done|]. intros (_ & pr' & Hpr' & Hf'). congruence.
    + split; [done|]. by intros (_ & pr' & Hpr' & _).
  - split; [done|]. by intros [? _].
Qed.

Lemma open_r_missing w p : open_r p w = Raise FileNotFoundError <-> w_fs w !! p = None.
Proof.
  unfold open_r. destruct (w_fs w !! p) as [[[c|] a m]|]; split; done.
Qed.

(** The check answers [True] exactly for a lock whose owner is alive and
    answers the probe. *)
Lemma locked_true_iff n w :
  _stl_generation_locked n w = Ret true <->
  exists pid pr, lock_owner n w = Some pid /\ pid_t pid /\
                 w_procs w !! pid = Some pr /\ p_foreign pr = false.
Proof.
  unfold _stl_generation_locked, lock_owner.
  destruct (open_r (lock_file n) w) as [text|e].
  - destruct (int_of_str text) as [pid|].
    + destruct (os_kill0 pid w) as [[]|e] eqn:Hk.
      * apply os_kill0_Ret in Hk as (Hr & pr & Hpr & Hf). split; [|done].
        intros _. by exists pid, pr.
      * split; [by destruct e|]. intros (pid' & pr & [= <-] & Hr & Hpr & Hf).
        assert (os_kill0 pid w = Ret tt) by (apply os_kill0_Ret; eauto). congruence.
    + split; [done | by intros (? & ? & ? & _)].
  - split; [by destruct e | by intros (? & ? & ? & _)].
Qed.

(** The check answers [False] exactly when the lock file is missing, when
    its content is no integer, or when no process has the identifier. *)
Lemma locked_false_iff n w :
  _stl_generation_locked n w = Ret false <->
  w_fs w !! lock_file n = None \/
  (exists text, open_r (lock_file n) w = Ret text /\ int_of_str text = None) \/
  (exists pid, lock_owner n w = Some pid /\ pid_t pid /\ w_procs w !! pid = None).
Proof.
  unfold _stl_generation_locked, lock_owner.
  destruct (open_r (lock_file n) w) as [text|e] eqn:Ho.
  - assert (Hsome : w_fs w !! lock_file n <> None).
    { intros Hn%open_r_missing. congruence. }
    destruct (int_of_str text) as [pid|] eqn:Hi.
    + destruct (os_kill0 pid w) as [[]|e] eqn:Hk.
      * split; [done|]. intros [?|[(text' & [= <-] & ?)|(pid' & [= <-] & Hr & Hn)]];
          try done; try congruence.
        assert (os_kill0 pid w = Raise ProcessLookupError)
          by (by apply os_kill0_ProcessLookupError). congruence.
      * split.
        -- intros He. destruct e; try discriminate.
           apply os_kill0_ProcessLookupError in Hk as [Hr Hn]. right. right. eauto.
        -- intros [?|[(text' & [= <-] & ?)|(pid' & [= <-] & Hr & Hn)]];
             try done; try congruence.
           assert (os_kill0 pid w = Raise ProcessLookupError)
             by (by apply os_kill0_ProcessLookupError).
           assert (e = ProcessLookupError) as -> by congruence. done.
    + split; [|done]. intros _. right. left. eauto.
  - split.
    + intros He. destruct e; try discriminate. left. by apply open_r_missing.
    + intros [Hn|[(text' & [=] & _)|(pid' & [=] & _)]].
      apply open_r_missing in Hn. assert (e = FileNotFoundError) as -> by congruence. done.
Qed.

(** With a probe that answers, the check decides whether the lock is held
    by a live process. *)
Lemma locked_decides_when_probe_answers n w :
  no_directory w (lock_file n) -> probe_answers n w ->
  (held_by_live_process n w -> _stl_generation_locked n w = Ret true) /\
  (~ held_by_live_process n w -> _stl_generation_locked n w = Ret false).
Proof.
  intros Hdir Hprobe. split.
  - intros (pid & Ho & pr & Hpr). destruct (Hprobe pid Ho) as [Hr Hf].
    apply locked_true_iff. exists pid, pr. eauto.
  - intros Hnot. apply locked_false_iff.
    destruct (w_fs w !! lock_file n) as [e|] eqn:Hlk; [|by left].
    right. destruct (open_r (lock_file n) w) as [text|ex] eqn:Ho.
    + destruct (int_of_str text) as [pid|] eqn:Hi; [|left; eauto].
      right. exists pid.
      assert (Hown : lock_owner n w = Some pid) by (unfold lock_owner; by rewrite Ho).
      destruct (Hprobe pid Hown) as [Hr _]. do 2 (split; [done|]).
      destruct (w_procs w !! pid) eqn:Hp; [|done].
      exfalso. apply Hnot. exists pid. split; [done|].
      unfold live. rewrite Hp. by eexists.
    + exfalso. unfold open_r in Ho. rewrite Hlk in Ho.
      destruct e as [[c|] a m]; [done|]. by apply (Hdir _ Hlk).
Qed.

End Lock.

(** ** Triggering the renderer *)

Section GenerateStl.
Context {L : Library}.
Implicit Types (n : node) (w : world) (t pid : Z) (p : string).

Lemma set_fs_same (f : gmap string entry -> gmap string entry) w :
  f (w_fs w) = w_fs w -> set_fs f w = w.
Proof. intros H. destruct w. unfold set_fs. simpl in *. by rewrite H. Qed.

Lemma open_w_regular w p :
  no_directory w p ->
  exists a, open_w p w =
            (Ret p, set_fs <[p := mkEntry (Regular "") a (w_clock w)]> w).
Proof.
  intros Hdir. unfold open_w.
  destruct (w_fs w !! p) as [[[c|] a m]|] eqn:Hlk; [by exists a| |by eexists].
  exfalso. by apply (Hdir _ Hlk).
Qed.

(** [try: os.remove(p)  except FileNotFoundError: pass] *)
Lemma os_remove_tolerant w p :
  no_directory w p ->
  try_except (os_remove p) except_FileNotFoundError w = (Ret tt, set_fs (delete p) w).
Proof.
  intros Hdir. unfold try_except, os_remove.
  destruct (w_fs w !! p) as [[[c|] a m]|] eqn:Hlk; simpl.
  - done.
  - exfalso. by apply (Hdir _ Hlk).
  - unfold ret. f_equal. symmetry. apply set_fs_same. by apply delete_id.
Qed.

(** The three ways of doing nothing: no file is touched and no process
    is started. *)
Lemma generate_stl_fresh n w :
  _up_to_date n (stl_file n) w = Ret true -> generate_stl n w = (Ret tt, w).
Proof. intros H. unfold generate_stl, bind, rd. by rewrite H. Qed.

Lemma generate_stl_not_rigid n w (b : bool) :
  _up_to_date n (stl_file n) w = Ret b -> rigid n = false ->
  generate_stl n w = (Ret tt, w).
Proof.
  intros H Hr. unfold generate_stl, bind, rd. rewrite H, Hr. by destruct b.
Qed.

Lemma generate_stl_locked n w (b : bool) :
  _up_to_date n (stl_file n) w = Ret b ->
  _stl_generation_locked n w = Ret true ->
  generate_stl n w = (Ret tt, w).
Proof.
  intros H Hl. unfold generate_stl, bind, rd. rewrite H.
  destruct b; [done|]. destruct (rigid n); [|done]. simpl. by rewrite Hl.
Qed.

(** The one way of doing something. *)
Lemma generate_stl_start n w t :
  _up_to_date n (stl_file n) w = Ret false ->
  rigid n = true ->
  _stl_generation_locked n w = Ret false ->
  artifacts_apart n w ->
  logical_time n w t ->
  exists a,
    generate_stl n w =
    (Raise (RenderStart (mkStlRenderStart (w_next_pid w) (stl_file n) t (lock_file n))),
     mkWorld
       (<[lock_file n := mkEntry (Regular (str_of_int (w_next_pid w))) a (w_clock w)]>
          (delete (stl_file n) (w_fs w)))
       (w_clock w)
       (<[w_next_pid w := mkProcess (renderer_argv n) false]> (w_procs w))
       (w_pid w) (w_next_pid w + 1) (w_mkdir_denied w) (w_openscad w) (w_debugger w)
       (w_kept w)).
Proof.
  intros Hfresh Hrigid Hlocked (Hdl & Hds & Hne & Hlf & Hsf) Hl.
  destruct (open_w_regular w (lock_file n) Hdl) as [a Hopen]. exists a.
  unfold generate_stl, bind, rd. rewrite Hfresh, Hrigid. simpl.
  rewrite Hlocked, Hopen.
  rewrite os_remove_tolerant.
  2:{ intros e He. simpl in He. rewrite lookup_insert_ne in He by done. by apply (Hds e). }
  unfold tot, Popen, fh_write, raise. simpl.
  rewrite lookup_delete_ne, lookup_insert_eq by done. simpl.
  erewrite (proj2 (mtime_logical_time n _ t)).
  - unfold set_fs, set_procs, renderer_argv. simpl.
    rewrite delete_insert_ne, insert_insert_eq by done. reflexivity.
  - eapply logical_time_frame; [|exact Hl]. intros p Hp. simpl.
    rewrite lookup_insert_ne by (intros <-; done).
    rewrite lookup_delete_ne by (intros <-; done).
    rewrite lookup_insert_ne by (intros <-; done). done.
Qed.

(** With contributing files in place, artifacts apart and a probe that
    answers, [generate_stl] does nothing when the binary is up to date,
    the node is not rigid or the lock is held by a live process, and
    otherwise starts the renderer and raises the pending job. *)
Lemma generate_stl_when_probe_answers n w t :
  logical_time n w t -> artifacts_apart n w -> probe_answers n w ->
  ((stored_mtime w (stl_file n) = Some t \/ rigid n = false
    \/ held_by_live_process n w) ->
   generate_stl n w = (Ret tt, w)) /\
  (~ (stored_mtime w (stl_file n) = Some t \/ rigid n = false
      \/ held_by_live_process n w) ->
   exists w', generate_stl n w =
     (Raise (RenderStart (mkStlRenderStart (w_next_pid w) (stl_file n) t (lock_file n))),
      w')
     /\ w_fs w' !! stl_file n = None
     /\ w_procs w' !! w_next_pid w = Some (mkProcess (renderer_argv n) false)).
Proof.
  intros Hl Hap Hprobe.
  pose proof (up_to_date_decided n (stl_file n) w t Hl) as Hup.
  destruct (locked_decides_when_probe_answers n w (proj1 Hap) Hprobe) as [Hheld Hfree].
  split.
  - intros [Hst|[Hr|Hh]].
    + apply generate_stl_fresh. by rewrite Hup, bool_decide_eq_true_2.
    + by eapply generate_stl_not_rigid.
    + eapply generate_stl_locked; eauto.
  - intros Hnone.
    destruct (generate_stl_start n w t) as [a Hrun]; try done.
    + rewrite Hup, bool_decide_eq_false_2; [done|]. tauto.
    + destruct (rigid n); [done|]. tauto.
    + apply Hfree. tauto.
    + eexists. split; [exact Hrun|]. simpl. destruct Hap as (_ & _ & Hne & _).
      rewrite lookup_insert_ne, lookup_delete_eq, lookup_insert_eq by done. done.
Qed.

End GenerateStl.

(** ** The claims on the lock and on [generate_stl] *)

Section LockClaims.
Context {L : Library}.
Implicit Types (n : node) (w : world) (t pid : Z) (p : string).

(** C10: the liveness probe handles the process-not-found error only.  A
    lock file that names a live process which the invoking process may
    not signal makes the check raise [PermissionError], and so does
    [generate_stl] once it reaches the check (the node is rigid and its
    binary is not up to date); the check falls back to "not locked" only
    for a missing file, unparsable content and a dead process. *)
Theorem liveness_probe_permission_error_propagates n w pid (pr : process) :
  lock_owner n w = Some pid ->
  pid_t pid ->
  w_procs w !! pid = Some pr ->
  p_foreign pr = true ->
  _stl_generation_locked n w = Raise PermissionError /\
  (rigid n = true -> _up_to_date n (stl_file n) w = Ret false ->
   generate_stl n w = (Raise PermissionError, w)) /\
  (forall w0,
      _stl_generation_locked n w0 = Ret false <->
      w_fs w0 !! lock_file n = None \/
      (exists text, open_r (lock_file n) w0 = Ret text /\ int_of_str text = None) \/
      (exists pid0, lock_owner n w0 = Some pid0 /\ pid_t pid0
                    /\ w_procs w0 !! pid0 = None)).
Proof.
  intros Ho Hr Hpr Hf.
  assert (Hk : os_kill0 pid w = Raise PermissionError).
  { apply os_kill0_PermissionError. eauto. }
  assert (Hlocked : _stl_generation_locked n w = Raise PermissionError).
  { unfold _stl_generation_locked, lock_owner in *.
    destruct (open_r (lock_file n) w) as [text|e]; [|done].
    rewrite Ho, Hk. done. }
  split; [done|]. split.
  - intros Hrigid Hup. unfold generate_stl, bind, rd.
    rewrite Hup, Hrigid. simpl. by rewrite Hlocked.
  - intros w0. apply locked_false_iff.
Qed.

(** C6, as the code has it: when [generate_stl] goes past its three
    no-op conditions, the identifier it writes into the lock file is the
    one of the renderer subprocess it has just started, the process that
    the pending job carries, not the one of the invoking process. *)
Theorem lock_file_holds_renderer_pid n w t :
  _up_to_date n (stl_file n) w = Ret false ->
  rigid n = true ->
  _stl_generation_locked n w = Ret false ->
  artifacts_apart n w ->
  logical_time n w t ->
  exists job w',
    generate_stl n w = (Raise (RenderStart job), w') /\
    open_r (lock_file n) w' = Ret (str_of_int (job_proc job)) /\
    lock_owner n w' = Some (job_proc job) /\
    job_proc job = w_next_pid w /\
    w_procs w' !! job_proc job = Some (mkProcess (renderer_argv n) false) /\
    w_pid w' = w_pid w /\
    (w_next_pid w <> w_pid w -> lock_owner n w' <> Some (w_pid w')).
Proof.
  intros Hup Hrigid Hlocked Hap Hl.
  destruct (generate_stl_start n w t Hup Hrigid Hlocked Hap Hl) as [a Hrun].
  eexists _, _. split; [exact Hrun|]. simpl.
  unfold lock_owner, open_r. simpl. rewrite !lookup_insert_eq.
  rewrite int_of_str_of_int. repeat split; try done. congruence.
Qed.

End LockClaims.

Lemma liveness_probe_permission_error_propagates_witness :
  lock_owner cube foreign_lock = Some 1 /\
  pid_t 1 /\
  w_procs foreign_lock !! 1 = Some (mkProcess ["init"] true) /\
  _stl_generation_locked cube foreign_lock = Raise PermissionError /\
  generate_stl cube foreign_lock = (Raise PermissionError, foreign_lock).
Proof.
  assert (H1 : lock_owner cube foreign_lock = Some 1) by reflexivity.
  assert (H2 : pid_t 1) by (unfold pid_t; lia).
  assert (H3 : w_procs foreign_lock !! 1 = Some (mkProcess ["init"] true))
    by reflexivity.
  destruct (liveness_probe_permission_error_propagates cube foreign_lock 1 _
              H1 H2 H3 eq_refl) as (Hcheck & Hgen & _).
  do 3 (split; [assumption|]). split; [exact Hcheck|].
  apply Hgen; reflexivity.
Defined.

(** C5 at a lock file that names process 1: the stored identifier is the
    one of a live process, and the check, which should report "locked",
    raises [PermissionError] and reports nothing. *)
Theorem locked_check_gives_no_verdict_on_foreign_owner :
  lock_owner cube foreign_lock = Some 1 /\
  live foreign_lock 1 /\
  _stl_generation_locked cube foreign_lock = Raise PermissionError.
Proof.
  split; [reflexivity|]. split; [|reflexivity].
  unfold live. by eexists.
Qed.

(** C2 at a lock file that names process 1: [cube] is rigid and has no
    binary, the lock is held by a live process, and [generate_stl], which
    should return without raising, raises [PermissionError]. *)
Theorem generate_stl_raises_on_foreign_owner :
  held_by_live_process cube foreign_lock /\
  generate_stl cube foreign_lock = (Raise PermissionError, foreign_lock).
Proof.
  split; [|reflexivity].
  exists 1. split; [reflexivity|]. unfold live. by eexists.
Qed.

(** On [built] nothing holds the lock and there is no binary yet: the
    renderer starts as process 4001 and the lock file reads 4001, while
    the invoking process is 4000. *)
Lemma lock_file_holds_renderer_pid_witness :
  _up_to_date cube (stl_file cube) built = Ret false /\
  rigid cube = true /\
  _stl_generation_locked cube built = Ret false /\
  artifacts_apart cube built /\
  logical_time cube built 100 /\
  exists job w',
    generate_stl cube built = (Raise (RenderStart job), w') /\
    open_r (lock_file cube) w' = Ret "4001" /\
    job_proc job = 4001.
Proof.
  assert (H1 : _up_to_date cube (stl_file cube) built = Ret false) by reflexivity.
  assert (H3 : _stl_generation_locked cube built = Ret false) by reflexivity.
  assert (H4 : artifacts_apart cube built).
  { repeat split; try (intros e He; vm_compute in He; discriminate);
      try discriminate; simpl; set_solver. }
  assert (H5 : logical_time cube built 100).
  { apply (logical_time_sole_source _ _ "parts/cube.py"); reflexivity. }
  split; [exact H1|]. split; [reflexivity|]. do 3 (split; [assumption|]).
  destruct (lock_file_holds_renderer_pid cube built 100 H1 eq_refl H3 H4 H5)
    as (job & w' & Hrun & Hlock & _ & Hpid & _).
  exists job, w'. split; [exact Hrun|]. rewrite Hlock, Hpid. split; reflexivity.
Defined.

(** C6 as stated fails on [built]: the lock file does not hold the
    identifier of the invoking process. *)
Lemma lock_file_not_invoker_pid :
  exists job w',
    generate_stl cube built = (Raise (RenderStart job), w') /\
    w_pid w' = 4000 /\
    lock_owner cube w' = Some 4001 /\
    lock_owner cube w' <> Some (w_pid w').
Proof.
  eexists _, _. split; [vm_compute; reflexivity|].
  split; [reflexivity|]. split; [reflexivity|]. discriminate.
Qed.

(** ** Finishing a render job *)

Section Job.
Implicit Types (job : StlRenderStart) (w : world) (p : string).

Lemma finish_run job w (e : entry) :
  w_fs w !! job_stl_file job = Some e ->
  no_directory w (job_lock_file job) ->
  job_lock_file job <> job_stl_file job ->
  finish job w =
  (Ret tt,
   set_fs (fun fs => delete (job_lock_file job)
                       (<[job_stl_file job :=
                            mkEntry (e_kind e) (w_kept w (w_clock w))
                                    (w_kept w (job_mtime job))]> fs)) w).
Proof.
  intros Hstl Hdir Hne. unfold finish, bind, rd, time_time, os_utime, os_utime_ns.
  rewrite Hstl. unfold os_path_exists, os_remove, set_fs. simpl.
  rewrite lookup_insert_ne by done.
  destruct (w_fs w !! job_lock_file job) as [[[c|] a m]|] eqn:Hlk; simpl.
  - rewrite lookup_insert_ne by done. rewrite Hlk. reflexivity.
  - exfalso. by apply (Hdir _ Hlk).
  - unfold ret. rewrite delete_id; [done|]. by rewrite lookup_insert_ne.
Qed.

(** Without a binary there is nothing to stamp: [os.utime] fails and the
    lock file stays. *)
Lemma finish_missing_binary job w :
  w_fs w !! job_stl_file job = None ->
  finish job w = (Raise FileNotFoundError, w).
Proof.
  intros Hstl. unfold finish, bind, rd, os_utime, os_utime_ns. by rewrite Hstl.
Qed.

(** [wait] hands the operating system over to [finish] as the renderer
    left it; the exit status is dropped. *)
Lemma wait_finish job w :
  wait job w = finish job (snd (proc_wait (job_proc job) w)).
Proof.
  unfold wait, bind, tot. by destruct (proc_wait (job_proc job) w).
Qed.

(** C7, as the code has it: [wait] is [finish] once the subprocess is
    over, whatever its exit [status].  When the binary file is there,
    [finish] gives it what [os.utime] keeps of the stamp that the job
    carries and then removes the lock file if it is there.  When the
    binary file is not there, [os.utime] raises [FileNotFoundError], and
    nothing is stamped or removed: the lock file stays. *)
Theorem wait_stamps_and_unlocks job w (status : Z) w1 :
  proc_wait (job_proc job) w = (status, w1) ->
  no_directory w1 (job_lock_file job) ->
  job_lock_file job <> job_stl_file job ->
  wait job w = finish job w1 /\
  (forall e : entry,
      w_fs w1 !! job_stl_file job = Some e ->
      exists w2,
        finish job w1 = (Ret tt, w2) /\
        w_fs w2 !! job_stl_file job
        = Some (mkEntry (e_kind e) (w_kept w1 (w_clock w1)) (w_kept w1 (job_mtime job))) /\
        w_fs w2 !! job_lock_file job = None /\
        (forall p, p <> job_stl_file job -> p <> job_lock_file job ->
                   w_fs w2 !! p = w_fs w1 !! p)) /\
  (w_fs w1 !! job_stl_file job = None ->
   finish job w1 = (Raise FileNotFoundError, w1)).
Proof.
  intros Hwait Hdir Hne. split; [by rewrite wait_finish, Hwait|]. split.
  - intros e Hstl. pose proof (finish_run job w1 e Hstl Hdir Hne) as Hfin.
    eexists. split; [exact Hfin|]. simpl. split; [|split].
    + rewrite lookup_delete_ne, lookup_insert_eq by done. done.
    + by rewrite lookup_delete_eq.
    + intros p Hp1 Hp2. by rewrite lookup_delete_ne, lookup_insert_ne.
  - apply finish_missing_binary.
Qed.

End Job.

(** The renderer of [in_flight] exits with status 3 after writing the
    binary at time 500; the binary is stamped 100 and the lock is gone. *)
Lemma wait_stamps_and_unlocks_witness :
  let w1 := snd (proc_wait (job_proc cube_job) in_flight) in
  proc_wait (job_proc cube_job) in_flight = (3, w1) /\
  w_fs w1 !! job_stl_file cube_job = Some (file "solid" 500) /\
  no_directory w1 (job_lock_file cube_job) /\
  job_lock_file cube_job <> job_stl_file cube_job /\
  exists w2,
    wait cube_job in_flight = (Ret tt, w2) /\
    w_fs w2 !! job_stl_file cube_job = Some (mkEntry (Regular "solid") 500 100) /\
    w_fs w2 !! job_lock_file cube_job = None.
Proof.
  intros w1.
  assert (H1 : proc_wait (job_proc cube_job) in_flight = (3, w1)) by reflexivity.
  assert (H2 : w_fs w1 !! job_stl_file cube_job = Some (file "solid" 500))
    by reflexivity.
  assert (H3 : no_directory w1 (job_lock_file cube_job)).
  { intros e He. vm_compute in He. injection He as <-. discriminate. }
  assert (H4 : job_lock_file cube_job <> job_stl_file cube_job) by discriminate.
  do 4 (split; [assumption|]).
  destruct (wait_stamps_and_unlocks cube_job in_flight 3 w1 H1 H3 H4)
    as (Hrun & Hthere & _).
  destruct (Hthere _ H2) as (w2 & Hfin & Hstl & Hlock & _).
  exists w2. split; [by rewrite Hrun|]. split; [exact Hstl | exact Hlock].
Defined.

(** C7 as stated fails on [failed_in_flight]: the renderer exits with
    status 1 and has written no binary; [wait] raises
    [FileNotFoundError], no binary is stamped, and the lock file is
    still there, naming the renderer that is over. *)
Lemma wait_raises_after_failed_render :
  exists w2,
    fst (proc_wait (job_proc cube_job) failed_in_flight) = 1 /\
    wait cube_job failed_in_flight = (Raise FileNotFoundError, w2) /\
    w_fs w2 !! job_stl_file cube_job = None /\
    open_r (job_lock_file cube_job) w2 = Ret "4001" /\
    w_procs w2 !! 4001 = None.
Proof.
  eexists. split; [reflexivity|]. split; [vm_compute; reflexivity|].
  repeat split; reflexivity.
Qed.

(** ** Build directories *)

Section BuildDirs.
Context {L : Library}.
Implicit Types (n : node) (w : world) (p : string) (path : list string).

Lemma make_build_dirs_loop_cons (d : string) path (build_dirs : list string) w :
  make_build_dirs_loop (d :: path) build_dirs w =
  bind (ensure_dir (join_slash (build_dirs ++ [d])))
       (fun _ => make_build_dirs_loop path (build_dirs ++ [d])) w.
Proof. reflexivity. Qed.

(** [os.mkdir] on a free path creates the directory, where the machine
    allows it, or raises and changes nothing. *)
Lemma os_mkdir_cases p w :
  w_fs w !! p = None ->
  ((p ∉ w_mkdir_denied w) /\
   os_mkdir p w = (Ret tt, set_fs <[p := mkEntry Directory (w_clock w) (w_clock w)]> w)) \/
  (exists e : exn, os_mkdir p w = (Raise e, w)).
Proof.
  intros Hlk. unfold os_mkdir. rewrite Hlk.
  set (create := if bool_decide (p ∈ w_mkdir_denied w) then _ else _).
  assert (Hcreate :
    ((p ∉ w_mkdir_denied w) /\
     create = (Ret tt, set_fs <[p := mkEntry Directory (w_clock w) (w_clock w)]> w)) \/
    (exists e : exn, create = (Raise e, w))).
  { unfold create. case_bool_decide; [right; by eexists | by left]. }
  clearbody create.
  case_bool_decide; [right; by eexists|].
  destruct (parent_of p) as [d|]; [|exact Hcreate].
  case_bool_decide; [exact Hcreate|].
  destruct (w_fs w !! d) as [[[c|] a m]|];
    [right; by eexists | exact Hcreate | right; by eexists].
Qed.

(** What a round can do: nothing, create the directory, or swallow a
    failure of [os.mkdir] and go through the debugger. *)
Lemma ensure_dir_cases p w :
  (os_path_exists p w = true /\ ensure_dir p w = (Ret tt, w)) \/
  (os_path_exists p w = false /\ (p ∉ w_mkdir_denied w) /\
   ensure_dir p w =
   (Ret tt, set_fs <[p := mkEntry Directory (w_clock w) (w_clock w)]> w)) \/
  (os_path_exists p w = false /\ ensure_dir p w = ipdb_set_trace w).
Proof.
  unfold ensure_dir, bind, rd, try_except, os_path_exists.
  destruct (w_fs w !! p) eqn:Hlk; simpl; [by left|]. right.
  destruct (os_mkdir_cases p w Hlk) as [[Hnd ->]|[e ->]]; [by left | by right].
Qed.

(** A round creates the directory, or finds it, when the path is not
    empty, the machine allows it, and the directory that holds it is
    there. *)
Lemma ensure_dir_makes p w :
  p <> "" -> (p ∉ w_mkdir_denied w) ->
  (forall d, parent_of p = Some d ->
             d = "" \/ exists a m, w_fs w !! d = Some (mkEntry Directory a m)) ->
  ensure_dir p w
  = (Ret tt, if os_path_exists p w then w
             else set_fs <[p := mkEntry Directory (w_clock w) (w_clock w)]> w).
Proof.
  intros Hp Hnd Hpar. unfold ensure_dir, bind, rd, try_except, os_path_exists.
  destruct (w_fs w !! p) eqn:Hlk; simpl; [done|].
  assert (Hmk : os_mkdir p w
                = (Ret tt, set_fs <[p := mkEntry Directory (w_clock w) (w_clock w)]> w)).
  { unfold os_mkdir. rewrite Hlk.
    rewrite (bool_decide_eq_false_2 (p = "")) by done.
    rewrite (bool_decide_eq_false_2 (p ∈ w_mkdir_denied w)) by done.
    destruct (parent_of p) as [d|]; [|done].
    case_bool_decide; [done|].
    destruct (Hpar d eq_refl) as [?|(a & m & ->)]; done. }
  by rewrite Hmk.
Qed.

(** No error of [os.mkdir] ever leaves [_make_build_dirs]: the call
    returns, or it raises what the debugger line raises. *)
Lemma make_build_dirs_loop_outcome path (build_dirs : list string) w :
  fst (make_build_dirs_loop path build_dirs w) = Ret tt \/
  fst (make_build_dirs_loop path build_dirs w) = Raise ModuleNotFoundError \/
  fst (make_build_dirs_loop path build_dirs w) = Raise BdbQuit.
Proof.
  revert build_dirs w. induction path as [|d path IH]; intros build_dirs w.
  - by left.
  - rewrite make_build_dirs_loop_cons. unfold bind.
    destruct (ensure_dir_cases (join_slash (build_dirs ++ [d])) w)
      as [[_ ->]|[(_ & _ & ->)|(_ & ->)]]; try apply IH.
    unfold ipdb_set_trace. destruct (w_debugger w); simpl; auto.
Qed.

Lemma make_build_dirs_outcome n w :
  fst (_make_build_dirs n w) = Ret tt \/
  fst (_make_build_dirs n w) = Raise ModuleNotFoundError \/
  fst (_make_build_dirs n w) = Raise BdbQuit.
Proof. apply make_build_dirs_loop_outcome. Qed.

(** When the user resumes from the debugger, the loop always returns. *)
Lemma make_build_dirs_loop_continue path (build_dirs : list string) w :
  w_debugger w = DbgContinue ->
  fst (make_build_dirs_loop path build_dirs w) = Ret tt.
Proof.
  revert build_dirs w. induction path as [|d path IH]; intros build_dirs w Hd.
  - done.
  - rewrite make_build_dirs_loop_cons. unfold bind.
    destruct (ensure_dir_cases (join_slash (build_dirs ++ [d])) w)
      as [[_ ->]|[(_ & _ & ->)|(_ & ->)]]; try by apply IH.
    unfold ipdb_set_trace. rewrite Hd. by apply IH.
Qed.

(** Where nothing is refused and nothing but directories is in the way,
    every prefix of a path that does not start at the root exists after
    the loop, and what existed before is left as it was. *)
Lemma make_build_dirs_loop_creates path (build_dirs : list string) w :
  w_mkdir_denied w = ∅ ->
  Forall (fun x => slash_free x = true) (build_dirs ++ path) ->
  (build_dirs = [] -> head path <> Some "") ->
  (build_dirs <> [] ->
   exists a m, w_fs w !! join_slash build_dirs = Some (mkEntry Directory a m)) ->
  (forall k (e : entry),
      w_fs w !! join_slash (build_dirs ++ take k path) = Some e -> e_kind e = Directory) ->
  exists w',
    make_build_dirs_loop path build_dirs w = (Ret tt, w') /\
    (forall p (e : entry), w_fs w !! p = Some e -> w_fs w' !! p = Some e) /\
    (forall k, (0 < k <= length path)%nat ->
               os_path_exists (join_slash (build_dirs ++ take k path)) w' = true).
Proof.
  revert build_dirs w.
  induction path as [|d path IH]; intros build_dirs w Hden Hfree Hrel Hpar Hdirs.
  - exists w. split; [done|]. split; [done|]. simpl. intros k Hk. lia.
  - rewrite make_build_dirs_loop_cons. unfold bind.
    set (p := join_slash (build_dirs ++ [d])).
    assert (Hfree1 : Forall (fun x => slash_free x = true) (build_dirs ++ [d])).
    { rewrite Forall_app in *. destruct Hfree as [H1 H2].
      inversion H2; subst. split; [done | by constructor]. }
    assert (Hp : p <> "").
    { unfold p. destruct build_dirs as [|b bs].
      - simpl. intros ->. by apply Hrel.
      - rewrite join_slash_snoc by done.
        destruct (join_slash (b :: bs)); simpl; discriminate. }
    rewrite (ensure_dir_makes p w Hp).
    2:{ rewrite Hden. set_solver. }
    2:{ intros d0 Hd0. right. destruct build_dirs as [|b bs].
        - unfold p, parent_of in Hd0. simpl in Hd0.
          rewrite split_slash_free in Hd0; [done|]. by inversion Hfree1.
        - unfold p in Hd0. rewrite parent_of_join in Hd0 by done.
          injection Hd0 as <-. by apply Hpar. }
    set (w1 := if os_path_exists p w then w
               else set_fs <[p := mkEntry Directory (w_clock w) (w_clock w)]> w).
    assert (Hmono1 : forall q (e : entry), w_fs w !! q = Some e -> w_fs w1 !! q = Some e).
    { intros q e Hq. unfold w1, os_path_exists.
      destruct (w_fs w !! p) eqn:Hlk; [done|]. simpl.
      rewrite lookup_insert_ne; [done|]. intros <-. congruence. }
    assert (Hp1 : exists a m, w_fs w1 !! p = Some (mkEntry Directory a m)).
    { unfold w1, os_path_exists. destruct (w_fs w !! p) as [e|] eqn:Hlk.
      - specialize (Hdirs 1%nat e). simpl in Hdirs. rewrite take_0 in Hdirs.
        specialize (Hdirs Hlk). destruct e as [[c|] a m]; [done|]. eauto.
      - simpl. rewrite lookup_insert_eq. eauto. }
    assert (Hden1 : w_mkdir_denied w1 = ∅).
    { unfold w1. by destruct (os_path_exists p w). }
    destruct (IH (build_dirs ++ [d]) w1 Hden1) as (w' & Hrun & Hmono & Hall).
    + by rewrite <- app_assoc.
    + intros Hnil. by destruct build_dirs.
    + intros _. exact Hp1.
    + intros k e He. rewrite <- app_assoc in He. simpl in He.
      unfold w1, os_path_exists in He.
      destruct (w_fs w !! p) eqn:Hlk.
      * apply (Hdirs (S k) e). exact He.
      * simpl in He.
        destruct (decide (join_slash (build_dirs ++ d :: take k path) = p)) as [Heq|Hne].
        -- rewrite Heq, lookup_insert_eq in He. by injection He as <-.
        -- rewrite lookup_insert_ne in He by done. apply (Hdirs (S k) e). exact He.
    + exists w'. split; [done|]. split; [by eauto|].
      intros [|k] Hk; [lia|]. simpl. destruct k as [|k].
      * rewrite take_0. destruct Hp1 as (a & m & Hp1).
        unfold os_path_exists. fold p. by rewrite (Hmono p _ Hp1).
      * specialize (Hall (S k)). rewrite <- app_assoc in Hall. simpl in Hall.
        apply Hall. simpl in Hk. lia.
Qed.

(** Where nothing is refused and nothing but directories is in the way,
    [_make_build_dirs] returns and the build directory is there, with
    every directory above it. *)
Lemma make_build_dirs_creates n w :
  w_mkdir_denied w = ∅ ->
  head (split_slash (build_dir n)) <> Some "" ->
  (forall k (e : entry),
      w_fs w !! join_slash (take k (split_slash (build_dir n))) = Some e ->
      e_kind e = Directory) ->
  exists w',
    _make_build_dirs n w = (Ret tt, w') /\
    os_path_exists (build_dir n) w' = true /\
    (forall p (e : entry), w_fs w !! p = Some e -> w_fs w' !! p = Some e) /\
    (forall k, (0 < k <= length (split_slash (build_dir n)))%nat ->
               os_path_exists (join_slash (take k (split_slash (build_dir n)))) w' = true).
Proof.
  intros Hden Hrel Hdirs.
  destruct (make_build_dirs_loop_creates (split_slash (build_dir n)) [] w Hden)
    as (w' & Hrun & Hmono & Hall); try done.
  { apply slash_free_split. }
  exists w'. split; [done|]. split; [|split; [exact Hmono | exact Hall]].
  specialize (Hall (length (split_slash (build_dir n)))).
  simpl in Hall. rewrite firstn_all, join_split_slash in Hall. apply Hall.
  pose proof (split_slash_nonempty (build_dir n)).
  destruct (split_slash (build_dir n)); [done | simpl; lia].
Qed.

End BuildDirs.

(** C9 on the machine [read_only]: [os.mkdir] refuses to create
    [_build/parts], and still the construction of [cube] returns the node
    as if nothing had happened, the operating system unchanged; the
    directory is not there afterwards. *)
Theorem init_swallows_mkdir_failure :
  os_path_exists "_build/parts" read_only = false /\
  os_mkdir "_build/parts" read_only = (Raise PermissionError, read_only) /\
  _make_build_dirs cube read_only = (Ret tt, read_only) /\
  init (L := text_library) "Cube" "parts/cube.py" true None [] (Some "a") read_only
    = (Ret cube, read_only).
Proof. repeat split; vm_compute; reflexivity. Qed.

(** ** The walk over the tree *)

Section Walk.
Context {L : Library} {C : NodeClass}.
Implicit Types (t : tree) (cs : list tree) (w : world) (tr : trace) (pos : list nat).



Lemma trigger_stl_unfold pos n cs w tr :
  trigger_stl pos (Tree n cs) w tr =
  let tr1 := tr ++ [(pos, v_assemble)] in
  let '(r, c) := assemble None (mkCtx n w []) in
  match r with
  | Raise e => (Raise e, (Tree (self c) cs, os c, tr1))
  | Ret _ =>
      let '(r2, (cs', w2, tr2)) := trigger_children pos 0 cs (os c) tr1 in
      match r2 with
      | Raise e => (Raise e, (Tree (self c) cs', w2, tr2))
      | Ret _ =>
          let tr3 := tr2 ++ [(pos, v_generate_stl)] in
          let '(r3, w3) := generate_stl (self c) w2 in
          (r3, (Tree (self c) cs', w3, tr3))
      end
  end.
Proof.
  simpl. destruct (assemble None (mkCtx n w [])) as [[a|e] c]; [|done].
  match goal with
  | |- (let '(_, _) := ?f 0%nat cs (os c) ?tr1 in _) = _ =>
      assert (Heach : forall i cs0 w0 tr0,
                 f i cs0 w0 tr0 = trigger_children pos i cs0 w0 tr0)
  end.
  { intros i cs0. revert i. induction cs0 as [|c0 cs0 IH]; intros i w0 tr0; [done|].
    simpl. destruct (trigger_stl (pos ++ [i]) c0 w0 tr0) as [[[]|e] [[c0' w0'] tr0']];
      [|done]. by rewrite IH. }
  by rewrite Heach.
Qed.








(** *** The walk is the calls of the build order, one after the other *)










End Walk.

(** ** The walk and the lock on the test machine *)

(** The first gear is built already; the walk stops at the pin, the first
    node whose binary is missing, before the second gear and the box
    come to their own binaries. *)
Example walk_stops_at_first_pending_job :
  let '(r, (_, _, tr)) := trigger_stl (C := CubeNode) [] gearbox (machine gearbox_fs) [] in
  r = Raise (RenderStart (mkStlRenderStart 4001 "_build/parts/pin.stl" 130
                                           "_build/parts/pin.stl.lock")) /\
  tr = [([], v_assemble); ([0%nat], v_assemble); ([0%nat], v_generate_stl);
        ([1%nat], v_assemble); ([1%nat; 0%nat], v_assemble);
        ([1%nat; 0%nat], v_generate_stl)].
Proof. vm_compute. split; reflexivity. Qed.

(** The calls of the build order, made one after the other, stop at the
    same job. *)
Example perform_all_stops_at_first_pending_job :
  (perform_all (C := CubeNode) (build_order [] gearbox) gearbox (machine gearbox_fs)).1
  = Raise (RenderStart (mkStlRenderStart 4001 "_build/parts/pin.stl" 130
                                         "_build/parts/pin.stl.lock")).
Proof. vm_compute. reflexivity. Qed.

(** With every binary up to date the walk returns, visits all nodes in
    the build order and starts no process. *)
Example walk_of_built_tree :
  let '(r, (_, w, tr)) :=
    trigger_stl (C := CubeNode) [] gearbox (machine gearbox_built_fs) [] in
  r = Ret tt /\ tr = build_order [] gearbox /\ w_next_pid w = 4001.
Proof. vm_compute. repeat split; reflexivity. Qed.

(** While the renderer started by a first call is alive, a second call
    finds the lock held and does nothing. *)
Example generate_stl_in_flight :
  let w1 := snd (generate_stl cube built) in
  lock_owner cube w1 = Some 4001 /\ live w1 4001 /\
  generate_stl cube w1 = (Ret tt, w1).
Proof.
  split; [reflexivity|]. split; [unfold live; by eexists|].
  vm_compute. reflexivity.
Qed.

(** The driver builds the gear box in four walks: the pin, the second
    gear and the box are rendered, in this order, by the processes 4001
    to 4003; every binary carries the stamp of its source, no lock file
    is left, and a further run starts nothing. *)
Example build_stls_gearbox :
  exists t' w' tr',
    build_stls (C := CubeNode) 4 gearbox (machine gearbox_fs) [] = Some (Ret tt, (t', w', tr')) /\
    w_next_pid w' = 4004 /\
    stored_mtime w' "_build/parts/pin.stl" = Some 130 /\
    stored_mtime w' "_build/parts/gear2.stl" = Some 120 /\
    stored_mtime w' "_build/parts/box.stl" = Some 100 /\
    w_fs w' !! "_build/parts/pin.stl.lock" = None /\
    build_stls (C := CubeNode) 1 t' w' [] = Some (Ret tt, (t', w', build_order [] gearbox)).
Proof.
  eexists _, _, _. split; [vm_compute; reflexivity|].
  repeat split; vm_compute; reflexivity.
Qed.

(** A lock left behind by a process that is gone, or holding no number,
    does not stop the renderer from being started. *)
Example stale_lock_recovery :
  let stale := machine (<[ "_build/parts/cube-a.stl.lock" := file "31337" 400 ]> built_fs) in
  let junk := machine (<[ "_build/parts/cube-a.stl.lock" := file "not a pid" 400 ]> built_fs) in
  _stl_generation_locked cube stale = Ret false /\
  _stl_generation_locked cube junk = Ret false /\
  _stl_generation_locked cube built = Ret false /\
  fst (generate_stl cube stale) = Raise (RenderStart cube_job).
Proof. repeat split; reflexivity. Qed.

(** ** A render in flight *)

Section InFlight.
Context {L : Library}.
Implicit Types (n : node) (w : world) (t : Z).

(** Once [generate_stl] has started the renderer, the lock file names the
    renderer, which is alive: the lock is held, and a further call does
    nothing until the job is finished. *)
Lemma generate_stl_holds_lock n w t :
  _up_to_date n (stl_file n) w = Ret false ->
  rigid n = true ->
  _stl_generation_locked n w = Ret false ->
  artifacts_apart n w ->
  logical_time n w t ->
  pid_t (w_next_pid w) ->
  exists job w',
    generate_stl n w = (Raise (RenderStart job), w') /\
    lock_owner n w' = Some (job_proc job) /\
    live w' (job_proc job) /\
    _stl_generation_locked n w' = Ret true /\
    generate_stl n w' = (Ret tt, w').
Proof.
  intros Hup Hrigid Hlocked Hap Hl Hpid.
  destruct (generate_stl_start n w t Hup Hrigid Hlocked Hap Hl) as [a Hrun].
  destruct Hap as (_ & _ & Hne & _).
  eexists _, _. split; [exact Hrun|]. simpl.
  match goal with |- lock_owner n ?w' = _ /\ _ => set (w1 := w') end.
  assert (Hown : lock_owner n w1 = Some (w_next_pid w)).
  { unfold lock_owner, open_r. simpl. rewrite lookup_insert_eq.
    apply int_of_str_of_int. }
  assert (Hproc : w_procs w1 !! w_next_pid w = Some (mkProcess (renderer_argv n) false)).
  { simpl. by rewrite lookup_insert_eq. }
  assert (Hheld : _stl_generation_locked n w1 = Ret true).
  { apply locked_true_iff. eexists _, _. eauto. }
  split; [done|]. split; [unfold live; rewrite Hproc; by eexists|]. split; [done|].
  apply (generate_stl_locked n w1 false); [|done].
  unfold _up_to_date, os_path_exists. simpl.
  by rewrite lookup_insert_ne, lookup_delete_eq.
Qed.

End InFlight.

(** * Further properties of the code *)

(** ** The logical time: failures, growth, touched sources *)

Section StalenessMore.
Context {L : Library}.
Implicit Types (n : node) (w : world) (t : Z) (p : string).



(** X2: the logical time grows with the contributing files: a node
    whose files include those of another has a logical time that is no
    earlier. *)
Theorem mtime_grows_with_files n1 n2 w t1 t2 :
  files n1 ⊆ files n2 ->
  mtime n1 w = Ret t1 ->
  mtime n2 w = Ret t2 ->
  t1 <= t2.
Proof.
  intros Hsub [(p & Hp & Hpt) _]%mtime_logical_time [_ Hall]%mtime_logical_time.
  destruct (Hall p) as (t' & Ht' & Hle); [set_solver|]. congruence.
Qed.

(** X3: an artifact that is up to date turns stale as soon as one of the
    contributing files is given a later modification time: the logical
    time moves to that time and the check on the artifact answers
    [False]. *)
Theorem touched_source_makes_stale n w (path f : string) (e : entry) (a t t' : Z) :
  logical_time n w t ->
  stored_mtime w path = Some t ->
  f ∈ files n ->
  f <> path ->
  w_fs w !! f = Some e ->
  t < t' ->
  exists w',
    os_utime_ns f (a, t') w = (Ret tt, w') /\
    _up_to_date n path w = Ret true /\
    mtime n w' = Ret t' /\
    _up_to_date n path w' = Ret false.
Proof.
  intros Hl Hst Hf Hne He Hlt. unfold os_utime_ns. rewrite He. eexists. split; [done|].
  split. { rewrite (up_to_date_decided n path w t Hl). by rewrite bool_decide_eq_true_2. }
  match goal with |- mtime n ?w1 = _ /\ _ => set (w' := w1) end.
  assert (Hl' : logical_time n w' t').
  { destruct Hl as [_ Hall]. split.
    - exists f. split; [done|]. unfold stored_mtime. simpl. by rewrite lookup_insert_eq.
    - intros q Hq. unfold stored_mtime. simpl. destruct (decide (q = f)) as [->|Hqf].
      + rewrite lookup_insert_eq. simpl. exists t'. split; [done | lia].
      + rewrite lookup_insert_ne by done. destruct (Hall q Hq) as (t0 & Ht0 & Hle).
        exists t0. split; [done | lia]. }
  split; [by apply mtime_logical_time|].
  rewrite (up_to_date_decided n path w' t' Hl'). rewrite bool_decide_eq_false_2; [done|].
  unfold stored_mtime in *. simpl. rewrite lookup_insert_ne by done.
  rewrite Hst. intros [= ?]. lia.
Qed.

End StalenessMore.

(** The box alone has logical time 100; with the files of the second
    gear among its own it has 120. *)
Lemma mtime_grows_with_files_witness :
  let assembly := with_files {[ "parts/box.py"; "parts/gear2.py" ]} (part "box") in
  files (part "box") ⊆ files assembly /\
  mtime (part "box") (machine gearbox_fs) = Ret 100 /\
  mtime assembly (machine gearbox_fs) = Ret 120 /\
  100 <= 120.
Proof.
  intros assembly.
  assert (H1 : files (part "box") ⊆ files assembly) by (simpl; set_solver).
  assert (H2 : mtime (part "box") (machine gearbox_fs) = Ret 100) by reflexivity.
  assert (H3 : mtime assembly (machine gearbox_fs) = Ret 120) by (vm_compute; reflexivity).
  do 3 (split; [assumption|]).
  exact (mtime_grows_with_files _ _ _ _ _ H1 H2 H3).
Defined.

(** The class file of [cube] is touched at time 300 while the description
    carries the stamp 100. *)
Lemma touched_source_makes_stale_witness :
  let w := described in
  logical_time cube w 100 /\
  stored_mtime w "_build/parts/cube-a.scad" = Some 100 /\
  "parts/cube.py" ∈ files cube /\
  100 < 300 /\
  exists w',
    os_utime_ns "parts/cube.py" (500, 300) w = (Ret tt, w') /\
    _up_to_date cube "_build/parts/cube-a.scad" w = Ret true /\
    _up_to_date cube "_build/parts/cube-a.scad" w' = Ret false.
Proof.
  intros w.
  assert (H1 : logical_time cube w 100).
  { apply (logical_time_sole_source _ _ "parts/cube.py"); reflexivity. }
  assert (H2 : stored_mtime w "_build/parts/cube-a.scad" = Some 100) by reflexivity.
  assert (H3 : "parts/cube.py" ∈ files cube) by (simpl; set_solver).
  assert (H4 : 100 < 300) by lia.
  do 4 (split; [assumption|]).
  destruct (touched_source_makes_stale cube w "_build/parts/cube-a.scad" "parts/cube.py"
              (file "class Cube" 100) 500 100 300 H1 H2 H3) as (w' & Hu & Hb & _ & Ha);
    [discriminate | reflexivity | lia |].
  exists w'. repeat split; assumption.
Defined.

(** ** The description file and the assembled model *)

Section AssemblyMore.
Context {L : Library} {C : NodeClass}.
Implicit Types (n : node) (w : world) (c : ctx) (m : Model) (t : Z).

(** A first assembly that returns, step by step. *)
Lemma assemble_fresh_Ret (r : option string) c m c1 :
  _assembled (self c) = None ->
  assemble r c = (Ret m, c1) ->
  exists n6 w5 (base : Model),
    self c1 = set__assembled (Some m) n6 /\
    generate_scad n6 w5 = (Ret tt, os c1) /\
    import_optimized n6 (os c1) = Ret (Some base) /\
    m = foldl (fun a op => scad op a) base (operations n6).
Proof.
  intros Hc H. unfold assemble in H.
  apply bind_Ret in H as (s & c0 & Hget & H).
  unfold get_self in Hget. injection Hget as <- <-. rewrite Hc in H.
  apply bind_Ret in H as ([] & ca & _ & H).
  apply bind_Ret in H as (rendered & c2 & _ & H).
  apply bind_Ret in H as ([] & c3 & _ & H).
  apply bind_Ret in H as (m0 & c4 & _ & H).
  apply bind_Ret in H as ([] & c5 & [= <-] & H).
  apply bind_Ret in H as ([] & c6 & (n6 & w6 & Hgen & ->)%call_Ret & H).
  apply bind_Ret in H as (optimized & c7 & (n7 & w7 & Himp & ->)%call_Ret & H).
  apply bind_Ret in H as (a & c8 & Ha & H).
  destruct optimized as [a'|]; [|discriminate]. injection Ha as <- <-.
  apply bind_Ret in H as (s' & c9 & [= <- <-] & H).
  apply bind_Ret in H as (a2 & c10 & Hops & H).
  rewrite apply_operations_run in Hops. injection Hops as <- <-.
  apply bind_Ret in H as ([] & c11 & [= <-] & H).
  injection H as <- <-. simpl in *.
  unfold on_world in Hgen, Himp.
  destruct (generate_scad (set_model (Some m0) (self c4)) (os c4)) as [rg wg] eqn:Hg.
  injection Hgen as -> <- <-.
  unfold rd in Himp.
  injection Himp as Himp <- <-.
  eexists _, _, _. split; [reflexivity|]. split; [exact Hg|]. split; [exact Himp|done].
Qed.

(** X5: a first assembly that returns gives the queued operations
    applied, in the order of the queue, to what [import_optimized]
    answers; the description file holds the text of the model of the
    node, without the operations. *)
Theorem assemble_applies_operations_in_order (r : option string) c m c1 :
  _assembled (self c) = None ->
  assemble r c = (Ret m, c1) ->
  exists (base : Model) (text : string),
    import_optimized (self c1) (os c1) = Ret (Some base) /\
    m = foldl (fun a op => scad op a) base (operations (self c1)) /\
    scad_code (self c1) = Ret text /\
    description (self c1) (os c1) = Some text.
Proof.
  intros Hc H.
  destruct (assemble_fresh_Ret r c m c1 Hc H) as (n6 & w5 & base & Hself & Hgen & Himp & Hm).
  destruct (generate_scad_Ret n6 w5 (os c1) Hgen) as (text & a & t & Hcode & _ & Hos).
  exists base, text. rewrite Hself. split; [exact Himp|]. split; [exact Hm|].
  split; [exact Hcode|].
  unfold description, open_r. simpl. rewrite Hos. simpl. by rewrite lookup_insert_eq.
Qed.

End AssemblyMore.

(** The rotation was queued first and is applied first: the translation
    wraps it. *)
Lemma assemble_applies_operations_in_order_witness :
  let c1 := snd (assemble (C := CubeNode) None (mkCtx turned_cube built [])) in
  _assembled (self (mkCtx turned_cube built [])) = None /\
  assemble (C := CubeNode) None (mkCtx turned_cube built [])
    = (Ret ("translate(1,0,0) rotate(90,z) cube(1);" : @Model text_library), c1) /\
  import_optimized (self c1) (os c1) = Ret (Some cube_model) /\
  description (self c1) (os c1) = Some "cube(1);".
Proof.
  intros c1.
  assert (H1 : _assembled (self (mkCtx turned_cube built [])) = None) by reflexivity.
  assert (H2 : assemble (C := CubeNode) None (mkCtx turned_cube built [])
               = (Ret ("translate(1,0,0) rotate(90,z) cube(1);" : @Model text_library), c1))
    by (vm_compute; reflexivity).
  destruct (assemble_applies_operations_in_order (C := CubeNode) None _ _ _ H1 H2)
    as (base & text & Himp & _ & Hcode & Hdesc).
  split; [exact H1|]. split; [exact H2|]. split; [reflexivity|].
  assert (Htext : text = "cube(1);").
  { assert (Hc : scad_code (self c1) = Ret ("cube(1);" : string)) by reflexivity.
    congruence. }
  by rewrite <- Htext.
Defined.

(** ** Importing the binary, and operations that come too late *)

Section ImportMore.
Context {L : Library} {C : NodeClass} {O : OperationsModule}.
Implicit Types (n : node) (w : world) (c : ctx) (m : Model) (t : Z).

(** X6: [import_optimized] answers with the import of the binary, the
    one [generate_mesh] builds, exactly when the node is rigid and the
    binary carries the logical time as its stamp; in every other case it
    answers with the model in memory.  A node that is not rigid gets its
    model without any look at the file system. *)
Theorem import_optimized_reuses_on_exact_stamp n w t :
  logical_time n w t ->
  import_optimized n w
  = Ret (if rigid n && bool_decide (stored_mtime w (stl_file n) = Some t)
         then Some (generate_mesh n) else model n)
  /\ (rigid n = false -> forall w0, import_optimized n w0 = Ret (model n)).
Proof.
  intros Hl. unfold import_optimized. split.
  - rewrite (up_to_date_decided n _ w t Hl). destruct (rigid n); [|done]. simpl.
    by case_bool_decide.
  - by intros ->.
Qed.

(** X7: [rotate] and [translate] queue their operation at the end; once
    the node is assembled they come too late: [assemble] still returns
    the cached model, without the new operations, and changes nothing. *)
Theorem operations_after_assembly_are_ignored (r r' : option string) c m c1
    (angle : Angle) (axis : Axis) (v : Vector) w' :
  assemble r c = (Ret m, c1) ->
  let n' := translate v (rotate angle axis (self c1)) in
  operations n'
  = operations (self c1)
      ++ [Rotation angle axis; Translation (rotate angle axis (self c1)) v] /\
  assemble r' (mkCtx n' w' (calls c1)) = (Ret m, mkCtx n' w' (calls c1)).
Proof.
  intros H n'. apply assemble_Ret in H as [Hcache _]. split.
  - unfold n', translate, rotate. simpl. by rewrite <- app_assoc.
  - by apply assemble_cached.
Qed.

End ImportMore.

(** [cube] is not rigid here, or its binary carries the stamp 100 of the
    class file. *)
Lemma import_optimized_reuses_on_exact_stamp_witness :
  logical_time cube_with_model rendered 100 /\
  import_optimized cube_with_model rendered = Ret (Some ("import ./cube-a.stl" : @Model text_library)) /\
  import_optimized cube_with_model described = Ret (Some cube_model).
Proof.
  assert (H : logical_time cube_with_model rendered 100).
  { apply (logical_time_sole_source _ _ "parts/cube.py"); reflexivity. }
  split; [exact H|].
  destruct (import_optimized_reuses_on_exact_stamp cube_with_model rendered 100 H) as [Hr _].
  split; [rewrite Hr; reflexivity | reflexivity].
Defined.

Lemma operations_after_assembly_are_ignored_witness :
  let c1 := snd (assemble (C := CubeNode) None (mkCtx cube built [])) in
  let late := translate (O := text_operations) "1,0,0"
                (rotate (O := text_operations) "90" "z" (self c1)) in
  assemble (C := CubeNode) None (mkCtx cube built []) = (Ret cube_model, c1) /\
  operations late = ["rotate(90,z)"; "translate(1,0,0)"] /\
  assemble (C := CubeNode) None (mkCtx late (os c1) (calls c1))
    = (Ret cube_model, mkCtx late (os c1) (calls c1)).
Proof.
  intros c1 late.
  assert (H : assemble (C := CubeNode) None (mkCtx cube built []) = (Ret cube_model, c1))
    by (vm_compute; reflexivity).
  destruct (operations_after_assembly_are_ignored (C := CubeNode) (O := text_operations)
              None None _ _ _ "90" "z" "1,0,0" (os c1) H) as [_ Hagain].
  split; [exact H|]. split; [reflexivity | exact Hagain].
Defined.

(** ** The lock: verdicts, errors, recovery *)

Section LockMore.
Context {L : Library}.
Implicit Types (n : node) (w : world) (t pid : Z) (p : string).

(** X8: the check answers [True] exactly when the lock file is a regular
    file whose text is an integer in the range of a C [int] that names a
    process the invoking process may signal. *)
Theorem lock_check_true_exactly n w :
  _stl_generation_locked n w = Ret true <->
  exists (text : string) pid (pr : process),
    open_r (lock_file n) w = Ret text /\ int_of_str text = Some pid /\
    pid_t pid /\ w_procs w !! pid = Some pr /\ p_foreign pr = false.
Proof.
  rewrite locked_true_iff. unfold lock_owner. split.
  - intros (pid & pr & Ho & Hrest).
    destruct (open_r (lock_file n) w) as [text|e]; [|done]. eauto 8.
  - intros (text & pid & pr & -> & Hi & Hrest). eauto.
Qed.


(** X10: a lock left behind by a process that is gone does not block:
    [generate_stl] starts the renderer and overwrites the lock file, which
    then names the new renderer and no longer the dead process. *)
Theorem stale_lock_is_taken_over n w t (old : Z) :
  lock_owner n w = Some old ->
  pid_t old ->
  w_procs w !! old = None ->
  rigid n = true ->
  _up_to_date n (stl_file n) w = Ret false ->
  artifacts_apart n w ->
  logical_time n w t ->
  _stl_generation_locked n w = Ret false /\
  exists job w',
    generate_stl n w = (Raise (RenderStart job), w') /\
    job_proc job = w_next_pid w /\
    lock_owner n w' = Some (w_next_pid w) /\
    live w' (w_next_pid w).
Proof.
  intros Ho Hr Hdead Hrigid Hup Hap Hl.
  assert (Hfree : _stl_generation_locked n w = Ret false).
  { apply locked_false_iff. right. right. eauto. }
  split; [done|].
  destruct (generate_stl_start n w t Hup Hrigid Hfree Hap Hl) as [a Hrun].
  eexists _, _. split; [exact Hrun|]. simpl. split; [done|].
  unfold lock_owner, open_r, live. simpl. rewrite !lookup_insert_eq.
  split; [apply int_of_str_of_int | by eexists].
Qed.

(** X11: the lock written by [generate_stl] is read back by the check:
    while the renderer just started is alive the check answers [True],
    and a second call of [generate_stl] starts nothing and changes
    nothing. *)
Theorem render_in_flight_blocks n w t :
  _up_to_date n (stl_file n) w = Ret false ->
  rigid n = true ->
  _stl_generation_locked n w = Ret false ->
  artifacts_apart n w ->
  logical_time n w t ->
  pid_t (w_next_pid w) ->
  exists job w',
    generate_stl n w = (Raise (RenderStart job), w') /\
    _stl_generation_locked n w' = Ret true /\
    generate_stl n w' = (Ret tt, w').
Proof.
  intros Hup Hrigid Hlocked Hap Hl Hpid.
  destruct (generate_stl_holds_lock n w t Hup Hrigid Hlocked Hap Hl Hpid)
    as (job & w' & Hrun & _ & _ & Hheld & Hagain).
  by exists job, w'.
Qed.

(** X12: what a call of [generate_stl] that starts the renderer does to
    the operating system: the binary is gone, the lock file names the
    child, exactly one process is added, with the command line of the
    renderer, and every other path, the description file among them, is
    left as it was. *)
Theorem generate_stl_start_effects n w t :
  _up_to_date n (stl_file n) w = Ret false ->
  rigid n = true ->
  _stl_generation_locked n w = Ret false ->
  artifacts_apart n w ->
  logical_time n w t ->
  exists w',
    generate_stl n w
    = (Raise (RenderStart (mkStlRenderStart (w_next_pid w) (stl_file n) t (lock_file n))),
       w') /\
    w_fs w' !! stl_file n = None /\
    open_r (lock_file n) w' = Ret (str_of_int (w_next_pid w)) /\
    w_procs w' = <[w_next_pid w := mkProcess (renderer_argv n) false]> (w_procs w) /\
    w_next_pid w' = w_next_pid w + 1 /\
    (forall p, p <> stl_file n -> p <> lock_file n -> w_fs w' !! p = w_fs w !! p).
Proof.
  intros Hup Hrigid Hlocked Hap Hl.
  destruct (generate_stl_start n w t Hup Hrigid Hlocked Hap Hl) as [a Hrun].
  destruct Hap as (_ & _ & Hne & _).
  eexists. split; [exact Hrun|]. simpl. unfold open_r. simpl.
  rewrite lookup_insert_ne, lookup_delete_eq, lookup_insert_eq by done.
  repeat split; try done.
  intros p Hp1 Hp2. by rewrite lookup_insert_ne, lookup_delete_ne.
Qed.

End LockMore.

Lemma stale_lock_is_taken_over_witness :
  lock_owner cube stale_lock = Some 31337 /\
  pid_t 31337 /\
  w_procs stale_lock !! 31337 = None /\
  artifacts_apart cube stale_lock /\
  logical_time cube stale_lock 100 /\
  exists job w',
    generate_stl cube stale_lock = (Raise (RenderStart job), w') /\
    lock_owner cube w' = Some 4001.
Proof.
  assert (H1 : lock_owner cube stale_lock = Some 31337) by reflexivity.
  assert (H2 : pid_t 31337) by (unfold pid_t; lia).
  assert (H3 : w_procs stale_lock !! 31337 = None) by reflexivity.
  assert (H4 : artifacts_apart cube stale_lock).
  { repeat split; try (intros e He; vm_compute in He; injection He as <-; discriminate);
      try (intros e He; vm_compute in He; discriminate);
      try discriminate; simpl; set_solver. }
  assert (H5 : logical_time cube stale_lock 100).
  { apply (logical_time_sole_source _ _ "parts/cube.py"); reflexivity. }
  assert (H6 : rigid cube = true) by reflexivity.
  assert (H7 : _up_to_date cube (stl_file cube) stale_lock = Ret false) by reflexivity.
  do 5 (split; [assumption|]).
  destruct (stale_lock_is_taken_over cube stale_lock 100 31337 H1 H2 H3 H6 H7 H4 H5)
    as (_ & job & w' & Hrun & _ & Hown & _).
  exists job, w'. split; [exact Hrun | exact Hown].
Defined.

Lemma render_in_flight_blocks_witness :
  _up_to_date cube (stl_file cube) built = Ret false /\
  _stl_generation_locked cube built = Ret false /\
  logical_time cube built 100 /\
  pid_t (w_next_pid built) /\
  exists job w',
    generate_stl cube built = (Raise (RenderStart job), w') /\
    generate_stl cube w' = (Ret tt, w').
Proof.
  assert (H1 : _up_to_date cube (stl_file cube) built = Ret false) by reflexivity.
  assert (H3 : _stl_generation_locked cube built = Ret false) by reflexivity.
  assert (H4 : artifacts_apart cube built).
  { repeat split; try (intros e He; vm_compute in He; discriminate);
      try discriminate; simpl; set_solver. }
  assert (H5 : logical_time cube built 100).
  { apply (logical_time_sole_source _ _ "parts/cube.py"); reflexivity. }
  assert (H6 : pid_t (w_next_pid built)) by (unfold pid_t; simpl; lia).
  do 4 (split; [assumption|]).
  assert (H2 : rigid cube = true) by reflexivity.
  destruct (render_in_flight_blocks cube built 100 H1 H2 H3 H4 H5 H6)
    as (job & w' & Hrun & _ & Hagain).
  exists job, w'. split; [exact Hrun | exact Hagain].
Defined.

Lemma generate_stl_start_effects_witness :
  _up_to_date cube (stl_file cube) described = Ret false /\
  _stl_generation_locked cube described = Ret false /\
  logical_time cube described 100 /\
  exists w',
    generate_stl cube described = (Raise (RenderStart cube_job), w') /\
    w_fs w' !! "_build/parts/cube-a.scad" = w_fs described !! "_build/parts/cube-a.scad" /\
    w_next_pid w' = 4002.
Proof.
  assert (H1 : _up_to_date cube (stl_file cube) described = Ret false) by reflexivity.
  assert (H3 : _stl_generation_locked cube described = Ret false) by reflexivity.
  assert (H4 : artifacts_apart cube described).
  { repeat split; try (intros e He; vm_compute in He; discriminate);
      try discriminate; simpl; set_solver. }
  assert (H5 : logical_time cube described 100).
  { apply (logical_time_sole_source _ _ "parts/cube.py"); reflexivity. }
  do 3 (split; [assumption|]).
  assert (H2 : rigid cube = true) by reflexivity.
  destruct (generate_stl_start_effects cube described 100 H1 H2 H3 H4 H5)
    as (w' & Hrun & _ & _ & _ & Hnext & Hframe).
  exists w'. split; [exact Hrun|]. split; [by apply Hframe | exact Hnext].
Defined.


(** The check on the three kinds of lock that make it raise. *)
Example lock_check_raises_ex :
  _stl_generation_locked cube huge_lock = Raise OverflowError /\
  _stl_generation_locked cube foreign_lock = Raise PermissionError /\
  _stl_generation_locked cube
    (machine (<[ "_build/parts/cube-a.stl.lock" := dir 400 ]> built_fs))
  = Raise IsADirectoryError.
Proof. repeat split; reflexivity. Qed.

(** ** The driver on a leaf *)

Section DriverMore.
Context {L : Library} {C : NodeClass}.
Implicit Types (n : node) (w : world) (t : Z) (tr : trace).

(** The renderer started by [generate_stl] runs to its end. *)
Lemma proc_wait_of_renderer n w (fs1 : gmap string entry) (out : option string)
    (status : Z) (w1 : world) :
  w_fs w1 !! scad_file n = w_fs w !! scad_file n ->
  w_openscad w1 = w_openscad w ->
  w_procs w1 !! w_next_pid w = Some (mkProcess (renderer_argv n) false) ->
  w_openscad w (description n w) = (out, status) ->
  proc_wait (w_next_pid w) w1
  = (status,
     set_procs (delete (w_next_pid w)) (w_next_pid w1)
       match out with
       | Some bytes =>
           set_fs <[stl_file n := mkEntry (Regular bytes) (w_clock w1) (w_clock w1)]> w1
       | None => w1
       end).
Proof.
  intros Hscad Hos Hproc Hren. unfold proc_wait. rewrite Hproc. simpl.
  unfold open_r. rewrite Hscad, Hos.
  unfold description, open_r in Hren.
  destruct (w_fs w !! scad_file n) as [[[c|] a m]|]; rewrite Hren; by destruct out.
Qed.

(** A walk over an assembled leaf is its [generate_stl]. *)
Lemma trigger_stl_assembled_leaf n (m : Model) w tr :
  _assembled n = Some m ->
  trigger_stl [] (Tree n []) w tr
  = (fst (generate_stl n w), (Tree n [], snd (generate_stl n w), tr ++ leaf_walk)).
Proof.
  intros Hm. rewrite trigger_stl_unfold. simpl.
  rewrite (assemble_cached None (mkCtx n w []) m Hm). simpl.
  destruct (generate_stl n w) as [r3 w3]. simpl.
  by rewrite <- app_assoc.
Qed.

(** The steps of the driver. *)
Lemma build_stls_returns (fuel : nat) (t0 t1 : tree) w w1 tr tr1 :
  trigger_stl [] t0 w tr = (Ret tt, (t1, w1, tr1)) ->
  build_stls (S fuel) t0 w tr = Some (Ret tt, (t1, w1, tr1)).
Proof. intros H. cbn [build_stls]. by rewrite H. Qed.

Lemma build_stls_waits (fuel : nat) (t0 t1 : tree) w w1 w2 tr tr1
    (job : StlRenderStart) :
  trigger_stl [] t0 w tr = (Raise (RenderStart job), (t1, w1, tr1)) ->
  wait job w1 = (Ret tt, w2) ->
  build_stls (S fuel) t0 w tr = build_stls fuel t1 w2 tr1.
Proof. intros H Hw. cbn [build_stls]. by rewrite H, Hw. Qed.

Lemma build_stls_wait_raises (fuel : nat) (t0 t1 : tree) w w1 w2 tr tr1
    (job : StlRenderStart) (e : exn) :
  trigger_stl [] t0 w tr = (Raise (RenderStart job), (t1, w1, tr1)) ->
  wait job w1 = (Raise e, w2) ->
  build_stls (S fuel) t0 w tr = Some (Raise e, (t1, w2, tr1)).
Proof. intros H Hw. cbn [build_stls]. by rewrite H, Hw. Qed.

(** One round of the driver on an assembled rigid leaf whose binary is
    stale and whose renderer writes a binary: a walk starts the renderer,
    the job is waited for, and the binary is given what the machine
    keeps of the logical time. *)
Lemma build_stls_round n (m : Model) w t tr (bytes : string) (status : Z) :
  _assembled n = Some m ->
  rigid n = true ->
  _up_to_date n (stl_file n) w = Ret false ->
  _stl_generation_locked n w = Ret false ->
  artifacts_apart n w ->
  three_paths n ->
  logical_time n w t ->
  w_openscad w (description n w) = (Some bytes, status) ->
  exists w2,
    (forall k, build_stls (S k) (Tree n []) w tr
               = build_stls k (Tree n []) w2 (tr ++ leaf_walk)) /\
    w_fs w2 !! stl_file n
    = Some (mkEntry (Regular bytes) (w_kept w (w_clock w)) (w_kept w t)) /\
    w_fs w2 !! lock_file n = None /\
    (forall p, p <> stl_file n -> p <> lock_file n -> w_fs w2 !! p = w_fs w !! p) /\
    w_next_pid w2 = w_next_pid w + 1 /\
    w_openscad w2 = w_openscad w /\
    w_kept w2 = w_kept w.
Proof.
  intros Hm Hrigid Hup Hlocked Hap (Hss & Hsl & Hls) Hl Hren.
  destruct (generate_stl_start n w t Hup Hrigid Hlocked Hap Hl) as [a Hrun].
  destruct Hap as (_ & _ & _ & Hlf & Hsf).
  match type of Hrun with _ = (_, ?w') => set (w1 := w') in * end.
  assert (Hwait : proc_wait (w_next_pid w) w1
            = (status, set_procs (delete (w_next_pid w)) (w_next_pid w1)
                 (set_fs <[stl_file n := mkEntry (Regular bytes) (w_clock w1) (w_clock w1)]> w1))).
  { apply (proc_wait_of_renderer n w (w_fs w1) (Some bytes)); try done.
    - unfold w1. simpl. by rewrite lookup_insert_ne, lookup_delete_ne.
    - unfold w1. simpl. by rewrite lookup_insert_eq. }
  set (job := mkStlRenderStart (w_next_pid w) (stl_file n) t (lock_file n)) in *.
  match type of Hwait with _ = (_, ?w') => set (w1' := w') in * end.
  assert (Hfin : wait job w1
            = (Ret tt,
               set_fs (fun fs => delete (lock_file n)
                                   (<[stl_file n := mkEntry (Regular bytes)
                                                      (w_kept w (w_clock w)) (w_kept w t)]> fs))
                      w1')).
  { rewrite wait_finish. simpl. rewrite Hwait. simpl.
    apply (finish_run job w1' (mkEntry (Regular bytes) (w_clock w) (w_clock w))).
    - unfold w1', w1. simpl. by rewrite lookup_insert_eq.
    - intros e He. unfold w1', w1 in He. simpl in He.
      rewrite lookup_insert_ne, lookup_insert_eq in He by done. by injection He as <-.
    - done. }
  match type of Hfin with _ = (_, ?w') => set (w2 := w') in * end.
  exists w2. split.
  { intros k.
    apply (build_stls_waits k (Tree n []) (Tree n []) w w1 w2 tr (tr ++ leaf_walk) job).
    - rewrite (trigger_stl_assembled_leaf n m w tr Hm). by rewrite Hrun.
    - exact Hfin. }
  split; [unfold w2; simpl; by rewrite lookup_delete_ne, lookup_insert_eq|].
  split; [unfold w2; simpl; by rewrite lookup_delete_eq|].
  split; [|done].
  intros p Hp1 Hp2. unfold w2, w1', w1. simpl.
  rewrite lookup_delete_ne, !lookup_insert_ne by done.
  by rewrite lookup_delete_ne.
Qed.

(** X13: the driver on an assembled rigid leaf whose binary is stale and
    whose renderer writes a binary, on a machine that keeps the logical
    time as it is: with any fuel of two walks or more it returns after
    exactly two walks and one renderer process; the binary then holds
    what the renderer wrote, stamped with the logical time, it is up to
    date, no lock file is left, and a further call of [generate_stl] does
    nothing. *)
Theorem build_stls_renders_stale_leaf n (m : Model) w t tr (bytes : string)
    (status : Z) (k : nat) :
  _assembled n = Some m ->
  rigid n = true ->
  _up_to_date n (stl_file n) w = Ret false ->
  _stl_generation_locked n w = Ret false ->
  artifacts_apart n w ->
  three_paths n ->
  logical_time n w t ->
  w_openscad w (description n w) = (Some bytes, status) ->
  w_kept w t = t ->
  exists w2,
    build_stls (S (S k)) (Tree n []) w tr
    = Some (Ret tt, (Tree n [], w2, tr ++ leaf_walk ++ leaf_walk)) /\
    w_fs w2 !! stl_file n = Some (mkEntry (Regular bytes) (w_kept w (w_clock w)) t) /\
    w_fs w2 !! lock_file n = None /\
    _up_to_date n (stl_file n) w2 = Ret true /\
    w_next_pid w2 = w_next_pid w + 1 /\
    generate_stl n w2 = (Ret tt, w2).
Proof.
  intros Hm Hrigid Hup Hlocked Hap Hthree Hl Hren Hkept.
  destruct (build_stls_round n m w t tr bytes status Hm Hrigid Hup Hlocked Hap Hthree Hl Hren)
    as (w2 & Hround & Hstl2 & Hlock2 & Hframe & Hnext & _).
  rewrite Hkept in Hstl2.
  destruct Hap as (_ & _ & _ & Hlf & Hsf).
  assert (Hl2 : logical_time n w2 t).
  { eapply logical_time_frame; [|exact Hl]. intros p Hp.
    apply Hframe; by intros ->. }
  assert (Hup2 : _up_to_date n (stl_file n) w2 = Ret true).
  { rewrite (up_to_date_decided n _ w2 t Hl2). apply f_equal, bool_decide_eq_true_2.
    unfold stored_mtime. by rewrite Hstl2. }
  exists w2. split.
  - rewrite Hround.
    rewrite (build_stls_returns k _ (Tree n []) w2 w2 _ ((tr ++ leaf_walk) ++ leaf_walk)).
    + by rewrite <- app_assoc.
    + rewrite (trigger_stl_assembled_leaf n m w2 _ Hm).
      by rewrite (generate_stl_fresh n w2 Hup2).
  - split; [done|]. split; [done|]. split; [done|]. split; [done|].
    by apply generate_stl_fresh.
Qed.

(** X19: the same leaf on a machine that does not keep the logical time
    as it is: the binary that a round leaves is stale again, the next
    walk starts the renderer again, and so on: the driver does not
    return, whatever the number of walks it is given. *)
Theorem build_stls_renders_forever n (m : Model) w t tr (bytes : string)
    (status : Z) (k : nat) :
  _assembled n = Some m ->
  rigid n = true ->
  _up_to_date n (stl_file n) w = Ret false ->
  _stl_generation_locked n w = Ret false ->
  artifacts_apart n w ->
  three_paths n ->
  logical_time n w t ->
  w_openscad w (description n w) = (Some bytes, status) ->
  w_kept w t <> t ->
  build_stls k (Tree n []) w tr = None.
Proof.
  intros Hm Hrigid Hup Hlocked Hap Hthree Hl Hren Hkept.
  revert w tr Hup Hlocked Hap Hl Hren Hkept.
  induction k as [|k IH]; intros w tr Hup Hlocked Hap Hl Hren Hkept; [done|].
  destruct (build_stls_round n m w t tr bytes status Hm Hrigid Hup Hlocked Hap Hthree Hl Hren)
    as (w2 & Hround & Hstl2 & Hlock2 & Hframe & Hnext & Hos & Hk2).
  rewrite Hround.
  destruct Hthree as (Hss & Hsl & Hls).
  destruct Hap as (_ & _ & Hne & Hlf & Hsf).
  assert (Hl2 : logical_time n w2 t).
  { eapply logical_time_frame; [|exact Hl]. intros p Hp.
    apply Hframe; by intros ->. }
  apply IH.
  - rewrite (up_to_date_decided n _ w2 t Hl2). apply f_equal, bool_decide_eq_false_2.
    unfold stored_mtime. rewrite Hstl2. simpl. congruence.
  - apply locked_false_iff. by left.
  - split; [|split; [|done]].
    + intros e He. congruence.
    + intros e He. rewrite Hstl2 in He. by injection He as <-.
  - exact Hl2.
  - rewrite Hos. unfold description, open_r in *. by rewrite Hframe.
  - by rewrite Hk2.
Qed.

(** X14: the same leaf with a renderer that writes no binary: the driver
    stops after one walk with the [FileNotFoundError] of [os.utime],
    whatever the exit status; the lock file stays, naming the renderer
    that is over, and so it does not block a later run. *)
Theorem build_stls_failed_render n (m : Model) w t tr (status : Z) (k : nat) :
  _assembled n = Some m ->
  rigid n = true ->
  _up_to_date n (stl_file n) w = Ret false ->
  _stl_generation_locked n w = Ret false ->
  artifacts_apart n w ->
  three_paths n ->
  logical_time n w t ->
  pid_t (w_next_pid w) ->
  w_procs w !! w_next_pid w = None ->
  w_openscad w (description n w) = (None, status) ->
  exists w2,
    build_stls (S k) (Tree n []) w tr
    = Some (Raise FileNotFoundError, (Tree n [], w2, tr ++ leaf_walk)) /\
    w_fs w2 !! stl_file n = None /\
    lock_owner n w2 = Some (w_next_pid w) /\
    w_procs w2 = w_procs w /\
    _stl_generation_locked n w2 = Ret false.
Proof.
  intros Hm Hrigid Hup Hlocked Hap (Hss & Hsl & Hls) Hl Hpid Hfresh Hren.
  destruct (generate_stl_start n w t Hup Hrigid Hlocked Hap Hl) as [a Hrun].
  match type of Hrun with _ = (_, ?w') => set (w1 := w') in * end.
  assert (Hwait : proc_wait (w_next_pid w) w1
            = (status, set_procs (delete (w_next_pid w)) (w_next_pid w1) w1)).
  { apply (proc_wait_of_renderer n w (w_fs w1) None); try done.
    - unfold w1. simpl. by rewrite lookup_insert_ne, lookup_delete_ne.
    - unfold w1. simpl. by rewrite lookup_insert_eq. }
  set (job := mkStlRenderStart (w_next_pid w) (stl_file n) t (lock_file n)) in *.
  match type of Hwait with _ = (_, ?w') => set (w2 := w') in * end.
  assert (Hstl : w_fs w2 !! stl_file n = None).
  { unfold w2, w1. simpl. by rewrite lookup_insert_ne, lookup_delete_eq. }
  assert (Hown : lock_owner n w2 = Some (w_next_pid w)).
  { unfold lock_owner, open_r, w2, w1. simpl. rewrite lookup_insert_eq.
    apply int_of_str_of_int. }
  assert (Hprocs : w_procs w2 = w_procs w).
  { unfold w2, w1. simpl. rewrite delete_insert_eq. by apply delete_id. }
  exists w2. split.
  - apply (build_stls_wait_raises k _ (Tree n []) w w1 w2 tr (tr ++ leaf_walk) job).
    + rewrite (trigger_stl_assembled_leaf n m w tr Hm). by rewrite Hrun.
    + rewrite wait_finish. simpl. rewrite Hwait. simpl.
      by apply finish_missing_binary.
  - split; [done|]. split; [done|]. split; [done|].
    apply locked_false_iff. right. right. exists (w_next_pid w).
    split; [done|]. split; [done|]. by rewrite Hprocs.
Qed.

End DriverMore.

Lemma build_stls_renders_stale_leaf_witness :
  _assembled assembled_cube = Some cube_model /\
  _up_to_date assembled_cube (stl_file assembled_cube) described = Ret false /\
  _stl_generation_locked assembled_cube described = Ret false /\
  artifacts_apart assembled_cube described /\
  three_paths assembled_cube /\
  logical_time assembled_cube described 100 /\
  w_openscad described (description assembled_cube described) = (Some "[cube(1);]", 0) /\
  w_kept described 100 = 100 /\
  exists w2,
    build_stls (C := CubeNode) 2 (Tree assembled_cube []) described []
    = Some (Ret tt, (Tree assembled_cube [], w2, leaf_walk ++ leaf_walk)) /\
    _up_to_date assembled_cube (stl_file assembled_cube) w2 = Ret true /\
    w_fs w2 !! lock_file assembled_cube = None.
Proof.
  assert (H1 : _assembled assembled_cube = Some cube_model) by reflexivity.
  assert (H2 : rigid assembled_cube = true) by reflexivity.
  assert (H3 : _up_to_date assembled_cube (stl_file assembled_cube) described = Ret false)
    by reflexivity.
  assert (H4 : _stl_generation_locked assembled_cube described = Ret false) by reflexivity.
  assert (H5 : artifacts_apart assembled_cube described).
  { repeat split; try (intros e He; vm_compute in He; discriminate);
      try discriminate; simpl; set_solver. }
  assert (H6 : three_paths assembled_cube) by (repeat split; discriminate).
  assert (H7 : logical_time assembled_cube described 100).
  { apply (logical_time_sole_source _ _ "parts/cube.py"); reflexivity. }
  assert (H8 : w_openscad described (description assembled_cube described)
               = (Some "[cube(1);]", 0)) by reflexivity.
  assert (H9 : w_kept described 100 = 100) by reflexivity.
  do 1 (split; [assumption|]). do 7 (split; [assumption|]).
  destruct (build_stls_renders_stale_leaf (C := CubeNode) assembled_cube cube_model
              described 100 [] _ 0 0%nat H1 H2 H3 H4 H5 H6 H7 H8 H9)
    as (w2 & Hrun & _ & Hlock & Hup & _).
  exists w2. split; [exact Hrun|]. split; [exact Hup | exact Hlock].
Defined.

(** On [described_odd] the class file was last changed at time 103, which
    the machine keeps as 100: five walks are not enough, nor is any other
    number. *)
Lemma build_stls_renders_forever_witness :
  _assembled assembled_cube = Some cube_model /\
  _up_to_date assembled_cube (stl_file assembled_cube) described_odd = Ret false /\
  _stl_generation_locked assembled_cube described_odd = Ret false /\
  artifacts_apart assembled_cube described_odd /\
  three_paths assembled_cube /\
  logical_time assembled_cube described_odd 103 /\
  w_openscad described_odd (description assembled_cube described_odd)
  = (Some "[cube(1);]", 0) /\
  w_kept described_odd 103 = 100 /\
  build_stls (C := CubeNode) 5 (Tree assembled_cube []) described_odd [] = None.
Proof.
  assert (H1 : _assembled assembled_cube = Some cube_model) by reflexivity.
  assert (H2 : rigid assembled_cube = true) by reflexivity.
  assert (H3 : _up_to_date assembled_cube (stl_file assembled_cube) described_odd
               = Ret false) by reflexivity.
  assert (H4 : _stl_generation_locked assembled_cube described_odd = Ret false)
    by reflexivity.
  assert (H5 : artifacts_apart assembled_cube described_odd).
  { repeat split; try (intros e He; vm_compute in He; discriminate);
      try discriminate; simpl; set_solver. }
  assert (H6 : three_paths assembled_cube) by (repeat split; discriminate).
  assert (H7 : logical_time assembled_cube described_odd 103).
  { apply (logical_time_sole_source _ _ "parts/cube.py"); reflexivity. }
  assert (H8 : w_openscad described_odd (description assembled_cube described_odd)
               = (Some "[cube(1);]", 0)) by reflexivity.
  assert (H9 : w_kept described_odd 103 = 100) by reflexivity.
  assert (H10 : w_kept described_odd 103 <> 103) by (rewrite H9; discriminate).
  do 1 (split; [assumption|]). do 7 (split; [assumption|]).
  exact (build_stls_renders_forever (C := CubeNode) assembled_cube cube_model
           described_odd 103 [] _ 0 5%nat H1 H2 H3 H4 H5 H6 H7 H8 H10).
Defined.

Lemma build_stls_failed_render_witness :
  _assembled assembled_cube = Some cube_model /\
  _up_to_date assembled_cube (stl_file assembled_cube) described_broken = Ret false /\
  _stl_generation_locked assembled_cube described_broken = Ret false /\
  artifacts_apart assembled_cube described_broken /\
  three_paths assembled_cube /\
  logical_time assembled_cube described_broken 100 /\
  pid_t (w_next_pid described_broken) /\
  w_procs described_broken !! w_next_pid described_broken = None /\
  w_openscad described_broken (description assembled_cube described_broken) = (None, 1) /\
  exists w2,
    build_stls (C := CubeNode) 1 (Tree assembled_cube []) described_broken []
    = Some (Raise FileNotFoundError, (Tree assembled_cube [], w2, leaf_walk)) /\
    lock_owner assembled_cube w2 = Some 4001 /\
    _stl_generation_locked assembled_cube w2 = Ret false.
Proof.
  assert (H1 : _assembled assembled_cube = Some cube_model) by reflexivity.
  assert (H2 : rigid assembled_cube = true) by reflexivity.
  assert (H3 : _up_to_date assembled_cube (stl_file assembled_cube) described_broken
               = Ret false) by reflexivity.
  assert (H4 : _stl_generation_locked assembled_cube described_broken = Ret false)
    by reflexivity.
  assert (H5 : artifacts_apart assembled_cube described_broken).
  { repeat split; try (intros e He; vm_compute in He; discriminate);
      try discriminate; simpl; set_solver. }
  assert (H6 : three_paths assembled_cube) by (repeat split; discriminate).
  assert (H7 : logical_time assembled_cube described_broken 100).
  { apply (logical_time_sole_source _ _ "parts/cube.py"); reflexivity. }
  assert (H8 : pid_t (w_next_pid described_broken)) by (unfold pid_t; simpl; lia).
  assert (H9 : w_procs described_broken !! w_next_pid described_broken = None)
    by reflexivity.
  assert (H10 : w_openscad described_broken (description assembled_cube described_broken)
                = (None, 1)) by reflexivity.
  do 1 (split; [assumption|]). do 8 (split; [assumption|]).
  destruct (build_stls_failed_render (C := CubeNode) assembled_cube cube_model
              described_broken 100 [] 1 0%nat H1 H2 H3 H4 H5 H6 H7 H8 H9 H10)
    as (w2 & Hrun & _ & Hown & _ & Hfree).
  exists w2. split; [exact Hrun|]. split; [exact Hown | exact Hfree].
Defined.

(** ** Construction *)

Section InitMore.
Context {L : Library}.
Implicit Types (n : node) (w : world).

(** A construction that returns has found both paths not empty and has
    made the build directories of the node it returns. *)
Lemma init_Ret (class_name class_file : string) (class_rigid : bool)
    (env : option string) (args : list string) (name_kw : option string) w n w' :
  init class_name class_file class_rigid env args name_kw w = (Ret n, w') ->
  env <> Some "" /\ os_path_dirname class_file <> "" /\
  _make_build_dirs n w = (Ret tt, w') /\
  build_dir n = build_dir_for env class_file /\
  name n = (if py_true (default "" name_kw) then default "" name_kw else class_name) /\
  basepath n
  = os_path_join (build_dir_for env class_file)
      (let name' := if py_true (default "" name_kw) then default "" name_kw
                    else join_comma args in
       let script := drop_last3 (List.last (split_slash class_file) "") in
       if py_true name' then script +:+ "-" +:+ name' else script) /\
  scad_file n = basepath n +:+ ".scad" /\
  stl_file n = basepath n +:+ ".stl" /\
  lock_file n = basepath n +:+ ".stl.lock".
Proof.
  unfold init, os_path_relpath_cwd. intros H.
  apply bind_Ret in H as (rb & w1 & Hrb & H).
  destruct (decide (default "_build" env = "")) as [Hb|Hb].
  { rewrite bool_decide_eq_true_2 in Hrb by done. discriminate. }
  rewrite bool_decide_eq_false_2 in Hrb by done.
  unfold ret in Hrb. injection Hrb as <- <-.
  apply bind_Ret in H as (rd' & w1 & Hrd & H).
  destruct (decide (os_path_dirname class_file = "")) as [Hd|Hd].
  { rewrite bool_decide_eq_true_2 in Hrd by done. discriminate. }
  rewrite bool_decide_eq_false_2 in Hrd by done.
  unfold ret in Hrd. injection Hrd as <- <-.
  apply bind_Ret in H as ([] & w1 & Hdirs & Hret).
  unfold ret in Hret. injection Hret as <- <-. simpl.
  split. { intros ->. by apply Hb. }
  repeat split; done.
Qed.

(** X16: the artifact paths depend on the class file and on the name, or
    without a name on the positional arguments joined by commas, and on
    nothing else: a node named by keyword, whatever its class and its
    positional arguments, and a node of any class built from positional
    arguments that spell the same text share description, binary and
    lock. *)
Theorem init_paths_collide (class1 class2 class_file nm : string) (rigid1 rigid2 : bool)
    (env : option string) (args1 args2 : list string) w1 w2 n1 n2 w1' w2' :
  py_true nm = true ->
  join_comma args1 = nm ->
  init class1 class_file rigid1 env args1 None w1 = (Ret n1, w1') ->
  init class2 class_file rigid2 env args2 (Some nm) w2 = (Ret n2, w2') ->
  scad_file n1 = scad_file n2 /\ stl_file n1 = stl_file n2 /\
  lock_file n1 = lock_file n2 /\ build_dir n1 = build_dir n2 /\
  name n1 = class1 /\ name n2 = nm.
Proof.
  intros Hnm Hargs H1 H2.
  apply init_Ret in H1 as (_ & _ & _ & Hb1 & Hn1 & Hp1 & Hs1 & Ht1 & Hl1).
  apply init_Ret in H2 as (_ & _ & _ & Hb2 & Hn2 & Hp2 & Hs2 & Ht2 & Hl2).
  simpl in *. rewrite Hargs in Hp1.
  repeat (rewrite Hnm in Hp1; simpl in Hp1).
  repeat (rewrite Hnm in Hp2; simpl in Hp2).
  rewrite Hnm in Hn2. simpl in Hn2.
  assert (Hp : basepath n1 = basepath n2) by congruence.
  rewrite Hs1, Hs2, Ht1, Ht2, Hl1, Hl2, Hb1, Hb2, Hp. done.
Qed.

(** What the loop of [_make_build_dirs] does to the file system, however
    it ends: see [make_build_dirs_only_adds_directories]. *)
Lemma make_build_dirs_loop_frame path (build_dirs : list string) w o w' :
  make_build_dirs_loop path build_dirs w = (o, w') ->
  (forall p (e : entry), w_fs w !! p = Some e -> w_fs w' !! p = Some e) /\
  (forall p (e : entry), w_fs w !! p = None -> w_fs w' !! p = Some e ->
     e = mkEntry Directory (w_clock w) (w_clock w) /\
     (p ∉ w_mkdir_denied w) /\
     exists k, (0 < k <= length path)%nat /\
               p = join_slash (build_dirs ++ take k path)) /\
  w_clock w' = w_clock w /\ w_procs w' = w_procs w /\
  w_mkdir_denied w' = w_mkdir_denied w.
Proof.
  revert build_dirs w. induction path as [|d path IH]; intros build_dirs w H.
  - injection H as <- <-. split; [done|]. split; [|done]. intros p e Hn He. congruence.
  - rewrite make_build_dirs_loop_cons in H. unfold bind in H.
    assert (Hlift : forall w1,
      w_clock w1 = w_clock w -> w_mkdir_denied w1 = w_mkdir_denied w ->
      forall p (e : entry),
        (e = mkEntry Directory (w_clock w1) (w_clock w1) /\
         (p ∉ w_mkdir_denied w1) /\
         exists k, (0 < k <= length path)%nat /\
                   p = join_slash ((build_dirs ++ [d]) ++ take k path)) ->
        e = mkEntry Directory (w_clock w) (w_clock w) /\
        (p ∉ w_mkdir_denied w) /\
        exists k, (0 < k <= length (d :: path))%nat /\
                  p = join_slash (build_dirs ++ take k (d :: path))).
    { intros w1 Hc Hd p e (-> & Hnd & k & Hk & ->). rewrite Hc, <- Hd.
      split; [done|]. split; [done|]. exists (S k). split; [simpl; lia|].
      simpl. by rewrite <- app_assoc. }
    destruct (ensure_dir_cases (join_slash (build_dirs ++ [d])) w)
      as [[_ Hrun]|[(Hex & Hnd & Hrun)|(_ & Hrun)]]; rewrite Hrun in H.
    + destruct (IH _ _ H) as (Hk & Hnew & Hc & Hp & Hd).
      split; [done|]. split; [|done]. intros p e Hn He.
      apply (Hlift w eq_refl eq_refl). by apply Hnew.
    + destruct (IH _ _ H) as (Hk & Hnew & Hc & Hp & Hd). simpl in *.
      assert (Hfree : w_fs w !! join_slash (build_dirs ++ [d]) = None).
      { unfold os_path_exists in Hex.
        by destruct (w_fs w !! join_slash (build_dirs ++ [d])). }
      split; [|split; [|done]].
      * intros p e He. apply Hk. rewrite lookup_insert_ne; [done|]. congruence.
      * intros p e Hn He.
        destruct (decide (p = join_slash (build_dirs ++ [d]))) as [->|Hne].
        -- assert (e = mkEntry Directory (w_clock w) (w_clock w)) as ->.
           { specialize (Hk (join_slash (build_dirs ++ [d]))
                            (mkEntry Directory (w_clock w) (w_clock w))).
             rewrite lookup_insert_eq in Hk. specialize (Hk eq_refl). congruence. }
           split; [done|]. split; [done|]. exists 1%nat. split; [simpl; lia|].
           simpl. by rewrite take_0.
        -- apply (Hlift (set_fs <[join_slash (build_dirs ++ [d])
                                  := mkEntry Directory (w_clock w) (w_clock w)]> w)
                    eq_refl eq_refl).
           apply Hnew; [|done]. simpl. by rewrite lookup_insert_ne.
    + unfold ipdb_set_trace in H. destruct (w_debugger w).
      * injection H as <- <-. split; [done|]. split; [|done]. intros p e Hn He. congruence.
      * destruct (IH _ _ H) as (Hk & Hnew & Hc & Hp & Hd).
        split; [done|]. split; [|done]. intros p e Hn He.
        apply (Hlift w eq_refl eq_refl). by apply Hnew.
      * injection H as <- <-. split; [done|]. split; [|done]. intros p e Hn He. congruence.
Qed.

(** X17: for a class file with a directory part and a build setting that
    is not empty, on a machine that refuses no directory and has nothing
    but directories on the way to the build directory, a path that does
    not start at the root: [__init__] returns the node; afterwards its
    build directory exists, and every file and directory that was there
    before is still there, unchanged. *)
Theorem init_makes_build_dir (class_name class_file : string) (class_rigid : bool)
    (env : option string) (args : list string) (name_kw : option string) w :
  w_mkdir_denied w = ∅ ->
  env <> Some "" ->
  os_path_dirname class_file <> "" ->
  head (split_slash (build_dir_for env class_file)) <> Some "" ->
  (forall k (e : entry),
      w_fs w !! join_slash (take k (split_slash (build_dir_for env class_file))) = Some e ->
      e_kind e = Directory) ->
  exists n w',
    init class_name class_file class_rigid env args name_kw w = (Ret n, w') /\
    build_dir n = build_dir_for env class_file /\
    os_path_exists (build_dir n) w' = true /\
    (forall p (e : entry), w_fs w !! p = Some e -> w_fs w' !! p = Some e).
Proof.
  intros Hden Henv Hdir Hrel Hway. unfold init, os_path_relpath_cwd.
  rewrite (bool_decide_eq_false_2 (default "_build" env = "")).
  2:{ destruct env as [b|]; simpl; [|done]. intros ->. by apply Henv. }
  rewrite (bool_decide_eq_false_2 (os_path_dirname class_file = "")) by done.
  unfold bind at 1. unfold ret at 1. unfold bind at 1. unfold ret at 1.
  match goal with |- context [_make_build_dirs ?n0] => set (n := n0) end.
  destruct (make_build_dirs_creates n w Hden Hrel Hway) as (w' & Hrun & Hex & Hmono & _).
  exists n, w'. split; [unfold bind; by rewrite Hrun|]. split; [done|].
  split; [exact Hex | exact Hmono].
Qed.

(** X18: however [_make_build_dirs] ends (it returns, or the debugger
    line raises), all it does to the machine is add directories: every
    entry that was there is still there, unchanged; an entry that is new
    is a directory stamped with the clock, at a path that is the first k
    components of the build directory joined by slashes and that the
    machine did not refuse; clock and processes are as before. *)
Theorem make_build_dirs_only_adds_directories n w :
  let w' := snd (_make_build_dirs n w) in
  (forall p (e : entry), w_fs w !! p = Some e -> w_fs w' !! p = Some e) /\
  (forall p (e : entry), w_fs w !! p = None -> w_fs w' !! p = Some e ->
     e = mkEntry Directory (w_clock w) (w_clock w) /\
     (p ∉ w_mkdir_denied w) /\
     exists k, (0 < k <= length (split_slash (build_dir n)))%nat /\
               p = join_slash (take k (split_slash (build_dir n)))) /\
  w_clock w' = w_clock w /\ w_procs w' = w_procs w.
Proof.
  unfold _make_build_dirs.
  destruct (make_build_dirs_loop (split_slash (build_dir n)) [] w) as [o w'] eqn:H.
  destruct (make_build_dirs_loop_frame _ _ _ _ _ H) as (Hk & Hnew & Hc & Hp & _).
  simpl. split; [done|]. split; [|done]. intros p e Hn He. by apply Hnew.
Qed.

(** X20: [os.path.relpath] refuses an empty path: for a class file given
    without a directory part, or with the build setting set to the empty
    text, [__init__] raises [ValueError] before it makes any directory,
    and no node is built. *)
Theorem init_refuses_empty_path (class_name class_file : string) (class_rigid : bool)
    (env : option string) (args : list string) (name_kw : option string) w :
  env = Some "" \/ os_path_dirname class_file = "" ->
  init class_name class_file class_rigid env args name_kw w = (Raise ValueError, w).
Proof.
  intros H. unfold init, os_path_relpath_cwd, bind.
  destruct H as [->|Hd]; simpl; [done|].
  case_bool_decide; [done|]. unfold ret. simpl. rewrite Hd. done.
Qed.

End InitMore.

Lemma init_paths_collide_witness :
  py_true "a" = true /\ join_comma ["a"] = "a" /\
  exists n1 n2 w1' w2',
    init (L := text_library) "Cube" "parts/cube.py" true None ["a"] None (machine sources)
    = (Ret n1, w1') /\
    init (L := text_library) "Gear" "parts/cube.py" false None ["12"; "3"] (Some "a")
         (machine sources)
    = (Ret n2, w2') /\
    stl_file n1 = "_build/parts/cube-a.stl" /\
    stl_file n2 = "_build/parts/cube-a.stl" /\
    name n1 = "Cube" /\ name n2 = "a".
Proof.
  assert (H1 : py_true "a" = true) by reflexivity.
  assert (H2 : join_comma ["a"] = "a") by reflexivity.
  split; [exact H1|]. split; [exact H2|].
  destruct (init (L := text_library) "Cube" "parts/cube.py" true None ["a"] None
              (machine sources)) as [[n1|e1] w1'] eqn:E1;
    [|vm_compute in E1; discriminate].
  destruct (init (L := text_library) "Gear" "parts/cube.py" false None ["12"; "3"]
              (Some "a") (machine sources)) as [[n2|e2] w2'] eqn:E2;
    [|vm_compute in E2; discriminate].
  exists n1, n2, w1', w2'. split; [reflexivity|]. split; [reflexivity|].
  destruct (init_paths_collide (L := text_library) "Cube" "Gear" "parts/cube.py" "a"
              true false None ["a"] ["12"; "3"] _ _ n1 n2 w1' w2' H1 H2 E1 E2)
    as (_ & Hstl & _ & _ & Hn1 & Hn2).
  assert (Hs2 : stl_file n2 = "_build/parts/cube-a.stl").
  { vm_compute in E2. injection E2 as <- _. reflexivity. }
  split; [by rewrite Hstl|]. split; [exact Hs2|]. split; [exact Hn1 | exact Hn2].
Defined.

Lemma init_makes_build_dir_witness :
  w_mkdir_denied (machine sources) = ∅ /\
  os_path_dirname "parts/cube.py" = "parts" /\
  build_dir_for (L := text_library) None "parts/cube.py" = "_build/parts" /\
  exists n w',
    init (L := text_library) "Cube" "parts/cube.py" true None [] (Some "a")
         (machine sources) = (Ret n, w') /\
    os_path_exists "_build/parts" w' = true.
Proof.
  assert (H1 : w_mkdir_denied (machine sources) = ∅) by reflexivity.
  assert (H2 : (None : option string) <> Some "") by discriminate.
  assert (H3 : os_path_dirname "parts/cube.py" <> "") by discriminate.
  assert (H4 : head (split_slash (build_dir_for (L := text_library) None "parts/cube.py"))
               <> Some "") by discriminate.
  assert (H5 : forall k (e : entry),
             w_fs (machine sources)
               !! join_slash (take k (split_slash
                    (build_dir_for (L := text_library) None "parts/cube.py"))) = Some e ->
             e_kind e = Directory).
  { intros k e. do 3 (destruct k as [|k]; [vm_compute; discriminate|]).
    vm_compute. discriminate. }
  split; [exact H1|]. split; [reflexivity|]. split; [reflexivity|].
  destruct (init_makes_build_dir (L := text_library) "Cube" "parts/cube.py" true None []
              (Some "a") (machine sources) H1 H2 H3 H4 H5) as (n & w' & Hrun & Hbd & Hex & _).
  exists n, w'. split; [exact Hrun|]. by rewrite Hbd in Hex.
Defined.

(** A script that is run from its own directory. *)
Lemma init_refuses_empty_path_witness :
  os_path_dirname "cube.py" = "" /\
  init (L := text_library) "Cube" "cube.py" true None [] (Some "a") (machine sources)
  = (Raise ValueError, machine sources).
Proof.
  assert (H : os_path_dirname "cube.py" = "") by reflexivity.
  split; [exact H|].
  apply (init_refuses_empty_path (L := text_library)). by right.
Defined.

(** A regular file in the way: [_build] is a file, [os.mkdir] fails at
    [_build/parts], the failure is swallowed, and the node is returned
    although its build directory is not there. *)
Example init_with_a_file_in_the_way :
  let w := machine (<[ "_build" := file "" 50 ]> sources) in
  os_mkdir "_build/parts" w = (Raise NotADirectoryError, w) /\
  init (L := text_library) "Cube" "parts/cube.py" true None [] (Some "a") w
  = (Ret cube, w) /\
  os_path_exists "_build/parts" w = false.
Proof. repeat split; vm_compute; reflexivity. Qed.
